(** * Mars-Climate: the cleaning and derivation pipeline of [main.py]

    A shallow embedding of [load_and_clean_data], [assign_mars_season],
    [plot_opacity] and the aggregation of [plot_season_comparison], with
    the pandas operations they call modelled on a column-major table. *)

From Stdlib Require Import String Ascii Bool Arith ZArith QArith Lia Lqa
  Permutation Sorted List.
Import ListNotations.
Local Open Scope string_scope.
Local Open Scope list_scope.
Local Open Scope nat_scope.

(** ** Values *)

(** A Python number as [read_csv] yields it (an [int64] or [float64]
    entry), taken by value: every integer and every finite float is a
    rational, and CPython compares them with the small integer literals of
    the source exactly.  The program computes with them in one place, the
    mean of the season chart, and that arithmetic is pandas' float64 kernel
    (see [Aggregation]). *)
Inductive number : Type :=
| Fin (q : Q)
| PosInf
| NegInf
| NaN.

(** A parsed [Timestamp] (calendar part and time of day). *)
Record Timestamp : Type := mkTimestamp
  { ts_year : nat; ts_month : nat; ts_day : nat; ts_nanos : N }.

(** One entry of a column. *)
Inductive cell : Type :=
| Num (x : number)
| Str (s : string)
| Time (t : Timestamp)
| NaT.

(** [pd.isna] on a scalar: the float NaN and the datetime NaT. *)
Definition isna (c : cell) : bool :=
  match c with
  | Num NaN => true
  | NaT => true
  | _ => false
  end.

Definition notna (c : cell) : bool := negb (isna c).

(** ** Exceptions *)

Inductive exn : Type :=
| FileNotFoundError (msg : string)
| IsADirectoryError
| ParserError (msg : string)
| KeyError (keys : list string)
| ValueError (msg : string)
| TypeError (msg : string).

Inductive result (A : Type) : Type :=
| Ok (a : A)
| Raise (e : exn).
Arguments Ok {A} a.
Arguments Raise {A} e.

Definition bind {A B : Type} (m : result A) (k : A -> result B) : result B :=
  match m with
  | Ok a => k a
  | Raise e => Raise e
  end.

Declare Scope result_scope.
Delimit Scope result_scope with result.
Notation "x <- m ;; k" := (bind m (fun x => k))
  (at level 61, m at next level, right associativity) : result_scope.
Local Open Scope result_scope.

Fixpoint mapM {A B : Type} (f : A -> result B) (l : list A) : result (list B) :=
  match l with
  | [] => Ok []
  | a :: l' => b <- f a ;; bs <- mapM f l' ;; Ok (b :: bs)
  end.

(** ** Comparisons of Python numbers *)

Definition num_le (a b : number) : bool :=
  match a, b with
  | NaN, _ | _, NaN => false
  | NegInf, _ => true
  | _, PosInf => true
  | Fin p, Fin q => Qle_bool p q
  | _, _ => false
  end.

Definition num_lt (a b : number) : bool :=
  match a, b with
  | NaN, _ | _, NaN => false
  | PosInf, _ => false
  | _, NegInf => false
  | Fin p, Fin q => negb (Qle_bool q p)
  | _, _ => true
  end.

(** [a <= b] and [a < b] where one side is an integer literal: defined on
    numbers, [TypeError] on a string or a timestamp. *)
Definition py_le (a b : cell) : result bool :=
  match a, b with
  | Num x, Num y => Ok (num_le x y)
  | _, _ => Raise (TypeError "'<=' not supported")
  end.

Definition py_lt (a b : cell) : result bool :=
  match a, b with
  | Num x, Num y => Ok (num_lt x y)
  | _, _ => Raise (TypeError "'<' not supported")
  end.

Definition lit (z : Z) : cell := Num (Fin (inject_Z z)).

(** The chained comparison [lo <= x < hi]: [x] is evaluated once and the
    second comparison only runs when the first holds. *)
Definition chained (lo : Z) (x : cell) (hi : Z) : result bool :=
  b <- py_le (lit lo) x ;;
  if b then py_lt x (lit hi) else Ok false.

(** ** The season classifier *)

Definition assign_mars_season (ls : cell) : result string :=
  b1 <- chained 0 ls 90 ;;
  if b1 then Ok "Spring" else
  b2 <- chained 90 ls 180 ;;
  if b2 then Ok "Summer" else
  b3 <- chained 180 ls 270 ;;
  if b3 then Ok "Autumn" else
  b4 <- chained 270 ls 360 ;;
  if b4 then Ok "Winter" else
  Ok "Unknown".

(** ** Header labels *)

(** [str.strip()] and [str.lower()] are Python's own and work on every
    Unicode label; the loader takes them as they are (see [Loader]).  What
    follows is what they do on ASCII text: the whitespace of the ASCII
    range is trimmed and the letters A to Z are lowercased. *)
Definition ascii_isspace (c : ascii) : bool :=
  let n := nat_of_ascii c in
  ((9 <=? n) && (n <=? 13)) || ((28 <=? n) && (n <=? 32)).

Definition ascii_lower_char (c : ascii) : ascii :=
  let n := nat_of_ascii c in
  if (65 <=? n) && (n <=? 90) then ascii_of_nat (n + 32) else c.

Fixpoint lstrip_list (l : list ascii) : list ascii :=
  match l with
  | [] => []
  | c :: l' => if ascii_isspace c then lstrip_list l' else l
  end.

Definition ascii_strip (s : string) : string :=
  string_of_list_ascii
    (rev (lstrip_list (rev (lstrip_list (list_ascii_of_string s))))).

Fixpoint ascii_lower (s : string) : string :=
  match s with
  | EmptyString => EmptyString
  | String c s' => String (ascii_lower_char c) (ascii_lower s')
  end.

(** Text made of ASCII characters only. *)
Definition is_ascii (s : string) : bool :=
  forallb (fun c => nat_of_ascii c <? 128) (list_ascii_of_string s).

(** ** Tables *)

Definition Series : Type := list cell.

(** A DataFrame, column-major: row labels and the labelled columns in
    header order.  Labels may repeat, as in pandas. *)
Record DataFrame : Type := mkDataFrame
  { index : list nat; data : list (string * Series) }.

(** [df.columns] *)
Definition columns (df : DataFrame) : list string := map fst (data df).

Definition has_label (name : string) (names : list string) : bool :=
  existsb (String.eqb name) names.

Definition set_columns (f : string -> string) (df : DataFrame) : DataFrame :=
  mkDataFrame (index df) (map (fun c => (f (fst c), snd c)) (data df)).

(** [df.columns = df.columns.str.strip().str.lower()], given the two
    string methods. *)
Definition normalize_columns (strip lower : string -> string) (df : DataFrame)
  : DataFrame :=
  set_columns (fun s => lower (strip s)) df.

(** [df.rename(columns={old: new})] *)
Definition rename (old new : string) (df : DataFrame) : DataFrame :=
  set_columns (fun s => if String.eqb s old then new else s) df.

(** The columns carrying a label. *)
Definition select (name : string) (df : DataFrame) : list Series :=
  map snd (filter (fun c => String.eqb (fst c) name) (data df)).

(** [df[name]] where a Series is needed: a missing label is a [KeyError];
    a repeated label selects a DataFrame, on which each use in this program
    ([to_datetime], [apply] of the classifier, [value_counts] followed by
    the two-label assignment) raises [ValueError]. *)
Definition getitem (df : DataFrame) (name : string) : result Series :=
  match select name df with
  | [] => Raise (KeyError [name])
  | [s] => Ok s
  | _ => Raise (ValueError "label is not unique")
  end.

(** [df[name] = s]: every column carrying the label is overwritten, or a
    new column is appended at the end. *)
Definition setitem (df : DataFrame) (name : string) (s : Series) : DataFrame :=
  if has_label name (columns df)
  then mkDataFrame (index df)
         (map (fun c => if String.eqb (fst c) name then (fst c, s) else c) (data df))
  else mkDataFrame (index df) (data df ++ [(name, s)]).

Definition at_row (k : nat) (s : Series) : cell := nth k s (Num NaN).

(** Positional selection of rows. *)
Definition take (df : DataFrame) (keep : list nat) : DataFrame :=
  mkDataFrame (map (fun k => nth k (index df) 0) keep)
    (map (fun c => (fst c, map (fun k => at_row k (snd c)) keep)) (data df)).

(** Row [k] has a value in every column whose label is in [subset]. *)
Definition complete (df : DataFrame) (subset : list string) (k : nat) : bool :=
  forallb (fun c => implb (has_label (fst c) subset) (notna (at_row k (snd c))))
    (data df).

(** [df.dropna(subset=subset)] *)
Definition dropna (df : DataFrame) (subset : list string) : result DataFrame :=
  match filter (fun n => negb (has_label n (columns df))) subset with
  | [] => Ok (take df (filter (complete df subset) (seq 0 (length (index df)))))
  | missing => Raise (KeyError missing)
  end.

(** [Series.apply(f)] for a function that may raise. *)
Definition apply (f : cell -> result string) (s : Series) : result Series :=
  mapM (fun c => v <- f c ;; Ok (Str v)) s.

(** ** Calendar fields *)

Definition digit (n : nat) : ascii := ascii_of_nat (48 + n mod 10).

Definition pad2 (n : nat) : string :=
  String (digit (n / 10)) (String (digit n) EmptyString).

Definition pad4 (n : nat) : string :=
  String (digit (n / 1000)) (String (digit (n / 100)) (pad2 n)).

Definition num_of_nat (n : nat) : cell := Num (Fin (inject_Z (Z.of_nat n))).

(** [.dt.year] *)
Definition dt_year (s : Series) : Series :=
  map (fun c => match c with Time t => num_of_nat (ts_year t) | _ => Num NaN end) s.

(** [.dt.strftime('%Y-%m-%d')] *)
Definition dt_strftime (s : Series) : Series :=
  map (fun c =>
         match c with
         | Time t => Str (pad4 (ts_year t) ++ "-" ++ pad2 (ts_month t)
                            ++ "-" ++ pad2 (ts_day t))%string
         | _ => Num NaN
         end) s.

(** ** Files *)

Inductive node : Type :=
| File (content : string)
| Directory.

Definition filesystem : Type := string -> option node.

(** What the loader does to the outside world, in order. *)
Inductive event : Type :=
| OsPathExists (path : string)
| ReadCsv (path : string).

Definition required : list string :=
  ["terrestrial_date"; "min_temp"; "max_temp"; "pressure"; "ls"].

Section Loader.

(** The text parser of [pd.read_csv]: the labelled columns of a file, or
    an exception. *)
Variable parse_csv : string -> result (list (string * Series)).

(** Python's [str.strip] and [str.lower], on labels of any script. *)
Variable strip lower : string -> string.

(** The scalar conversion of [pd.to_datetime(..., errors='coerce')] for an
    entry of a given column; [None] when the entry cannot be parsed. *)
Variable datetime_of : Series -> cell -> option Timestamp.

Definition nrows (cols : list (string * Series)) : nat :=
  match cols with
  | [] => 0
  | c :: _ => length (snd c)
  end.

(** [pd.read_csv(path)]: the parsed columns under a fresh [RangeIndex]. *)
Definition read_csv (fs : filesystem) (path : string) : result DataFrame :=
  match fs path with
  | None => Raise (FileNotFoundError path)
  | Some Directory => Raise IsADirectoryError
  | Some (File content) =>
      cols <- parse_csv content ;;
      Ok (mkDataFrame (seq 0 (nrows cols)) cols)
  end.

(** [pd.to_datetime(s, errors='coerce')] *)
Definition to_datetime (s : Series) : Series :=
  map (fun c => match datetime_of s c with Some t => Time t | None => NaT end) s.

(** The frame as it stands after line 21: labels normalized, the alias
    renamed, the dates parsed. *)
Definition dated (df : DataFrame) : result DataFrame :=
  let df := normalize_columns strip lower df in
  let df := rename "atmo_opacity" "atmospheric_opacity" df in
  d <- getitem df "terrestrial_date" ;;
  Ok (setitem df "terrestrial_date" (to_datetime d)).

(** Lines 18 to 28 of [load_and_clean_data], on the frame just read. *)
Definition clean (df : DataFrame) : result DataFrame :=
  let df := normalize_columns strip lower df in
  let df := rename "atmo_opacity" "atmospheric_opacity" df in
  d <- getitem df "terrestrial_date" ;;
  let df := setitem df "terrestrial_date" (to_datetime d) in
  df <- dropna df required ;;
  l <- getitem df "ls" ;;
  s <- apply assign_mars_season l ;;
  let df := setitem df "season" s in
  d <- getitem df "terrestrial_date" ;;
  let df := setitem df "year" (dt_year d) in
  d <- getitem df "terrestrial_date" ;;
  let df := setitem df "day" (dt_strftime d) in
  Ok df.

Definition load_and_clean_data (fs : filesystem) (csv_path : string)
  : list event * result DataFrame :=
  match fs csv_path with
  | None =>
      ([OsPathExists csv_path],
       Raise (FileNotFoundError ("❌ Data file not found at: " ++ csv_path)%string))
  | Some _ =>
      ([OsPathExists csv_path; ReadCsv csv_path],
       df <- read_csv fs csv_path ;; clean df)
  end.

End Loader.

(** ** Grouping and counting *)

Definition num_eqb (a b : number) : bool :=
  match a, b with
  | Fin p, Fin q => Qeq_bool p q
  | PosInf, PosInf => true
  | NegInf, NegInf => true
  | NaN, NaN => true
  | _, _ => false
  end.

Definition ts_eqb (s t : Timestamp) : bool :=
  (ts_year s =? ts_year t) && (ts_month s =? ts_month t)
  && (ts_day s =? ts_day t) && N.eqb (ts_nanos s) (ts_nanos t).

Definition ts_leb (s t : Timestamp) : bool :=
  if ts_year s =? ts_year t then
    if ts_month s =? ts_month t then
      if ts_day s =? ts_day t then N.leb (ts_nanos s) (ts_nanos t)
      else ts_day s <? ts_day t
    else ts_month s <? ts_month t
  else ts_year s <? ts_year t.

(** Equality of entries as hashing sees it: numbers by value, strings by
    exact equality. *)
Definition cell_eqb (a b : cell) : bool :=
  match a, b with
  | Num x, Num y => num_eqb x y
  | Str s, Str t => String.eqb s t
  | Time s, Time t => ts_eqb s t
  | NaT, NaT => true
  | _, _ => false
  end.

Definition cell_rank (c : cell) : nat :=
  match c with
  | Num _ => 0
  | Str _ => 1
  | Time _ => 2
  | NaT => 3
  end.

(** The order in which group keys are sorted; within one type it is the
    order of the values (strings lexicographically). *)
Definition cell_leb (a b : cell) : bool :=
  match a, b with
  | Num x, Num y => num_le x y
  | Str s, Str t => String.leb s t
  | Time s, Time t => ts_leb s t
  | _, _ => cell_rank a <=? cell_rank b
  end.

Fixpoint insert {A : Type} (le : A -> A -> bool) (x : A) (l : list A) : list A :=
  match l with
  | [] => [x]
  | y :: l' => if le x y then x :: l else y :: insert le x l'
  end.

Fixpoint isort {A : Type} (le : A -> A -> bool) (l : list A) : list A :=
  match l with
  | [] => []
  | x :: l' => insert le x (isort le l')
  end.

(** The distinct entries, in order of first appearance. *)
Fixpoint unique (l : list cell) : list cell :=
  match l with
  | [] => []
  | x :: l' => x :: filter (fun y => negb (cell_eqb x y)) (unique l')
  end.

Definition count (v : cell) (s : Series) : nat :=
  length (filter (cell_eqb v) s).

(** [Series.value_counts()]: missing entries are left out and the counts
    are in decreasing order. *)
Definition value_counts (s : Series) : list (cell * nat) :=
  let vals := filter notna s in
  isort (fun a b => snd b <=? snd a)
    (map (fun v => (v, count v vals)) (unique vals)).

(** Positions of the rows whose key is [g]. *)
Definition group_rows (k : Series) (g : cell) : list nat :=
  filter (fun i => cell_eqb (at_row i k) g) (seq 0 (length k)).

Definition is_nan (x : number) : bool :=
  match x with
  | NaN => true
  | _ => false
  end.

(** A column takes part in [mean] only if it is numeric (pandas 2 raises on
    a text column instead of leaving it out). *)
Definition as_number (c : cell) : result number :=
  match c with
  | Num x => Ok x
  | _ => Raise (TypeError "agg function failed [how->mean]")
  end.

Section Aggregation.

(** The float64 kernel behind [mean()]: the sum of the numbers of a group,
    in float64 arithmetic, divided by their count.  It rounds, and how it
    orders and compensates the additions is pandas' own; it is taken as it
    is. *)
Variable float64_mean : list number -> number.

(** The mean of the numbers present ([skipna]); NaN when there is none. *)
Definition mean (xs : list number) : cell :=
  match filter (fun x => negb (is_nan x)) xs with
  | [] => Num NaN
  | present => Num (float64_mean present)
  end.

Definition group_means (k : Series) (groups : list cell) (c : Series)
  : result Series :=
  xs <- mapM as_number c ;;
  Ok (map (fun g => mean (map (fun i => nth i xs NaN) (group_rows k g))) groups).

(** [df.groupby(key)[vals].mean().reset_index()]: missing keys are left
    out, the groups come sorted by key, and the key becomes the first
    column under a fresh [RangeIndex]. *)
Definition groupby_mean (df : DataFrame) (key : string) (vals : list string)
  : result DataFrame :=
  k <- getitem df key ;;
  match filter (fun v => negb (has_label v (columns df))) vals with
  | [] =>
      let groups := isort cell_leb (unique (filter notna k)) in
      let picked :=
        flat_map (fun v => filter (fun c => String.eqb (fst c) v) (data df)) vals in
      agg <- mapM (fun c => m <- group_means k groups (snd c) ;; Ok (fst c, m))
               picked ;;
      Ok (mkDataFrame (seq 0 (length groups)) ((key, groups) :: agg))
  | missing => Raise (KeyError missing)
  end.

End Aggregation.

(** ** The two aggregating plots *)

(** What reaches the renderer. *)
Inductive figure : Type :=
| PxBar (table : DataFrame) (x y : string)
| GoBars (traces : list (string * Series * Series)).

Inductive output : Type :=
| Plot (filename : string) (fig : figure)
| Print (msg : string).

Definition plot_opacity (df : DataFrame) : result output :=
  if has_label "atmospheric_opacity" (columns df) then
    s <- getitem df "atmospheric_opacity" ;;
    let vc := value_counts s in
    let opacity_counts :=
      mkDataFrame (seq 0 (length vc))
        [("Opacity Type", map fst vc);
         ("Count", map (fun p => num_of_nat (snd p)) vc)] in
    Ok (Plot "opacity_plot.html" (PxBar opacity_counts "Opacity Type" "Count"))
  else Ok (Print "⚠️ No atmospheric_opacity column found.").

Definition plot_season_comparison (float64_mean : list number -> number)
  (df : DataFrame) : result output :=
  avg_by_season <- groupby_mean float64_mean df "season"
                     ["min_temp"; "max_temp"; "pressure"] ;;
  x <- getitem avg_by_season "season" ;;
  y1 <- getitem avg_by_season "min_temp" ;;
  y2 <- getitem avg_by_season "max_temp" ;;
  y3 <- getitem avg_by_season "pressure" ;;
  Ok (Plot "season_comparison.html"
        (GoBars [("Min Temp", x, y1); ("Max Temp", x, y2); ("Pressure", x, y3)])).

(** The mean as the specification words it. *)
Definition arithmetic_mean (l : list Q) : Q :=
  fold_right Qplus 0%Q l / inject_Z (Z.of_nat (length l)).

(** ** The remaining plots *)

(** One line of a chart: its legend name, its two coordinate columns (x
    and y, or theta and r on a polar chart) and its colour. *)
Record trace : Type := mkTrace
  { trace_name : string; trace_x : Series; trace_y : Series; trace_color : string }.

(** The charts of the four remaining plot functions, with the constant
    options they hand to the renderer as a list of settings. *)
Inductive chart : Type :=
| GoScatter (traces : list trace) (layout : list (string * string))
| PxLine (table : DataFrame) (x y : string) (animation_frame : option string)
    (options : list (string * string))
| GoScatterpolar (traces : list trace) (layout : list (string * string)).

(** What a run does, in order. *)
Inductive step : Type :=
| Io (e : event)
| Wrote (filename : string) (c : chart)
| Did (o : output)
| PrintedError (e : exn).

(** A computation that leaves steps behind and may raise: what was done
    before an exception stays done. *)
Definition proc (A : Type) : Type := (list step * result A)%type.

Definition pbind {A B : Type} (m : proc A) (k : A -> proc B) : proc B :=
  match snd m with
  | Ok a => (fst m ++ fst (k a), snd (k a))
  | Raise e => (fst m, Raise e)
  end.

Definition lift {A : Type} (r : result A) : proc A := ([], r).

Definition emit (s : step) : proc unit := ([s], Ok tt).

Declare Scope proc_scope.
Delimit Scope proc_scope with proc.
Notation "x <~ m ;; k" := (pbind m (fun x => k))
  (at level 61, m at next level, right associativity) : proc_scope.

(** A column named in a [px.line] call: the name must be that of a column
    of the frame. *)
Definition px_column (df : DataFrame) (name : string) : result Series :=
  match select name df with
  | [s] => Ok s
  | _ => Raise (ValueError "not the name of a column")
  end.

Definition plot_temperature (df : DataFrame) : proc unit :=
  (x1 <~ lift (getitem df "terrestrial_date") ;;
   y1 <~ lift (getitem df "min_temp") ;;
   x2 <~ lift (getitem df "terrestrial_date") ;;
   y2 <~ lift (getitem df "max_temp") ;;
   emit (Wrote "temperature_plot.html"
           (GoScatter
              [mkTrace "Min Temp (°C)" x1 y1 "skyblue";
               mkTrace "Max Temp (°C)" x2 y2 "orangered"]
              [("title", "Martian Temperature Range (2012–2018)");
               ("xaxis_title", "Earth Date");
               ("yaxis_title", "Temperature (°C)");
               ("hovermode", "x unified");
               ("template", "plotly_dark")])))%proc.

Definition plot_pressure (df : DataFrame) : proc unit :=
  (_ <~ lift (px_column df "terrestrial_date") ;;
   _ <~ lift (px_column df "pressure") ;;
   emit (Wrote "pressure_plot.html"
           (PxLine df "terrestrial_date" "pressure" None
              [("title", "Martian Atmospheric Pressure (2012–2018)");
               ("labels.pressure", "Pressure (Pa)");
               ("labels.terrestrial_date", "Earth Date");
               ("template", "plotly_dark");
               ("line.color", "limegreen");
               ("hovermode", "x unified")])))%proc.

Definition plot_animated_temperature (df : DataFrame) : proc unit :=
  (_ <~ lift (px_column df "day") ;;
   _ <~ lift (px_column df "max_temp") ;;
   _ <~ lift (px_column df "year") ;;
   emit (Wrote "animated_temperature.html"
           (PxLine df "day" "max_temp" (Some "year")
              [("title", "Animated Max Temperature on Mars (Yearly)");
               ("labels.day", "Earth Day");
               ("labels.max_temp", "Max Temp (°C)");
               ("template", "plotly_dark");
               ("line.color", "tomato");
               ("xaxis_tickformat", "%b %d");
               ("xaxis_title", "Earth Date");
               ("yaxis_title", "Max Temp (°C)")])))%proc.

(** The entries that are there are of one type, so that they compare. *)
Definition comparable (s : Series) : bool :=
  match s with
  | [] => true
  | c :: r => forallb (fun c' => cell_rank c' =? cell_rank c) r
  end.

(** [df.sort_values(key)]: rows in increasing order of the key column,
    those without a key last.  pandas leaves the order of rows with equal
    keys open; here they keep their relative order. *)
Definition sort_values (df : DataFrame) (key : string) : result DataFrame :=
  k <- getitem df key ;;
  let rows := seq 0 (length (index df)) in
  let there := filter (fun i => notna (at_row i k)) rows in
  let missing := filter (fun i => isna (at_row i k)) rows in
  if comparable (map (fun i => at_row i k) there)
  then Ok (take df (isort (fun i j => cell_leb (at_row i k) (at_row j k)) there
                      ++ missing))
  else Raise (TypeError "'<' not supported").

Definition polar_layout (title radial : string) : list (string * string) :=
  [("title", title);
   ("polar.angularaxis.direction", "clockwise");
   ("polar.angularaxis.rotation", "90");
   ("polar.radialaxis.title", radial);
   ("template", "plotly_dark")].

Definition plot_polar_climate (df : DataFrame) : proc unit :=
  (df_sorted <~ lift (sort_values df "ls") ;;
   r1 <~ lift (getitem df_sorted "min_temp") ;;
   theta1 <~ lift (getitem df_sorted "ls") ;;
   r2 <~ lift (getitem df_sorted "max_temp") ;;
   theta2 <~ lift (getitem df_sorted "ls") ;;
   _ <~ emit (Wrote "polar_temperature.html"
                (GoScatterpolar
                   [mkTrace "Min Temp (°C)" theta1 r1 "skyblue";
                    mkTrace "Max Temp (°C)" theta2 r2 "orangered"]
                   (polar_layout "Martian Temperature vs Solar Longitude (Ls)"
                      "Temperature (°C)"))) ;;
   r3 <~ lift (getitem df_sorted "pressure") ;;
   theta3 <~ lift (getitem df_sorted "ls") ;;
   emit (Wrote "polar_pressure.html"
           (GoScatterpolar
              [mkTrace "Pressure" theta3 r3 "limegreen"]
              (polar_layout "Martian Pressure vs Solar Longitude (Ls)"
                 "Pressure (Pa)"))))%proc.

(** ** The entry point *)

(** [os.path.dirname] on a POSIX path: everything up to the last slash,
    without trailing slashes unless it is made of slashes only. *)
Fixpoint drop_slashes (l : list ascii) : list ascii :=
  match l with
  | "/"%char :: l' => drop_slashes l'
  | _ => l
  end.

Fixpoint drop_tail (l : list ascii) : list ascii :=
  match l with
  | [] => []
  | "/"%char :: _ => l
  | _ :: l' => drop_tail l'
  end.

Definition dirname (p : string) : string :=
  let head := rev (drop_tail (rev (list_ascii_of_string p))) in
  match drop_slashes (rev head) with
  | [] => string_of_list_ascii head
  | stripped => string_of_list_ascii (rev stripped)
  end.

(** [os.path.join(a, b)] for a relative [b]. *)
Definition join (a b : string) : string :=
  match rev (list_ascii_of_string a) with
  | [] => b
  | "/"%char :: _ => (a ++ b)%string
  | _ => (a ++ "/" ++ b)%string
  end.

Definition said (r : result output) : proc unit :=
  match r with
  | Ok o => emit (Did o)
  | Raise e => lift (Raise e)
  end.

Section EntryPoint.

Variable parse_csv : string -> result (list (string * Series)).
Variable strip lower : string -> string.
Variable datetime_of : Series -> cell -> option Timestamp.
Variable float64_mean : list number -> number.

Definition loaded (fs : filesystem) (csv_path : string) : proc DataFrame :=
  (map Io (fst (load_and_clean_data parse_csv strip lower datetime_of fs csv_path)),
   snd (load_and_clean_data parse_csv strip lower datetime_of fs csv_path)).

(** [main()], given the value of [__file__]: the steps of the run, the
    caught exception printed last when there is one. *)
Definition main (file : string) (fs : filesystem) : list step :=
  let base_dir := dirname file in
  let csv_path := join base_dir "../data/mars-weather.csv" in
  let body :=
    (df <~ loaded fs csv_path ;;
     _ <~ plot_temperature df ;;
     _ <~ plot_pressure df ;;
     _ <~ said (plot_opacity df) ;;
     _ <~ said (plot_season_comparison float64_mean df) ;;
     _ <~ plot_animated_temperature df ;;
     _ <~ plot_polar_climate df ;;
     emit (Did (Print "✅ All plots generated including polar plots. Check your HTML files.")))%proc in
  match snd body with
  | Ok _ => fst body
  | Raise e => fst body ++ [PrintedError e]
  end.

End EntryPoint.

(** ** A sample source *)

(** The samples have ASCII labels and small whole numbers: on these the
    string methods are [ascii_strip] and [ascii_lower], and float64
    arithmetic is exact, which is how the samples are run. *)
Definition exact_add (a b : number) : number :=
  match a, b with
  | NaN, _ | _, NaN => NaN
  | PosInf, NegInf | NegInf, PosInf => NaN
  | PosInf, _ | _, PosInf => PosInf
  | NegInf, _ | _, NegInf => NegInf
  | Fin p, Fin q => Fin (p + q)
  end.

Definition exact_div (a : number) (n : nat) : number :=
  match a with
  | Fin p => Fin (Qred (p / inject_Z (Z.of_nat n)))
  | x => x
  end.

Definition exact_mean (xs : list number) : number :=
  exact_div (fold_left exact_add xs (Fin 0)) (length xs).

Definition digit_value (c : ascii) : option nat :=
  let n := nat_of_ascii c in
  if (48 <=? n) && (n <=? 57) then Some (n - 48) else None.

Fixpoint decimal (acc : nat) (l : list ascii) : option nat :=
  match l with
  | [] => Some acc
  | c :: l' =>
      match digit_value c with
      | Some d => decimal (10 * acc + d) l'
      | None => None
      end
  end.

(** A date reader for entries written [YYYY-MM-DD]; anything else does not
    parse. *)
Definition iso_date (_ : Series) (c : cell) : option Timestamp :=
  match c with
  | Str s =>
      match list_ascii_of_string s with
      | [y1; y2; y3; y4; "-"%char; m1; m2; "-"%char; d1; d2] =>
          match decimal 0 [y1; y2; y3; y4], decimal 0 [m1; m2], decimal 0 [d1; d2] with
          | Some y, Some m, Some d =>
              if (1 <=? m) && (m <=? 12) && (1 <=? d) && (d <=? 31)
              then Some (mkTimestamp y m d 0)
              else None
          | _, _, _ => None
          end
      | _ => None
      end
  | _ => None
  end.

Definition sample_columns : list (string * Series) :=
  [(" Terrestrial_Date ",
      [Str "2012-08-16"; Str "not a date"; Str "2013-01-05"; Str "2014-03-09";
       Str "2015-07-21"]);
   (" Min_Temp ", [lit (-75); lit (-76); Num NaN; lit (-70); lit (-80)]);
   ("max_temp", [lit (-2); lit (-1); lit 0; lit (-5); lit (-9)]);
   ("Pressure", [lit 739; lit 740; lit 741; lit 900; lit 850]);
   ("LS", [lit 155; lit 156; lit 200; lit 270; lit 360]);
   ("ATMO_OPACITY", [Str "Sunny"; Str "Sunny"; Str "Sunny"; Str "Cloudy"; Str "Sunny"])].

(** The same source without its solar longitude column. *)
Definition sample_columns_no_ls : list (string * Series) :=
  filter (fun c => negb (String.eqb (fst c) "LS")) sample_columns.

(** A single row that lacks only its pressure. *)
Definition single_row_columns : list (string * Series) :=
  [("terrestrial_date", [Str "2012-08-16"]);
   ("min_temp", [lit (-75)]);
   ("max_temp", [lit (-2)]);
   ("pressure", [Num NaN]);
   ("ls", [lit 155]);
   ("atmo_opacity", [Str "Sunny"])].

Definition sample_parse (content : string) : result (list (string * Series)) :=
  if String.eqb content "sample" then Ok sample_columns
  else if String.eqb content "sample without ls" then Ok sample_columns_no_ls
  else if String.eqb content "single row" then Ok single_row_columns
  else Raise (ParserError "unexpected content").

Definition sample_fs : filesystem :=
  fun path =>
    if String.eqb path "data/mars-weather.csv" then Some (File "sample")
    else if String.eqb path "data/no-ls.csv" then Some (File "sample without ls")
    else if String.eqb path "data/single-row.csv" then Some (File "single row")
    else if String.eqb path "data" then Some Directory
    else None.

(** The records of the aggregation example of the specification. *)
Definition season_example : DataFrame :=
  mkDataFrame [0; 1; 2; 3]
    [("season", [Str "Spring"; Str "Summer"; Str "Spring"; Str "Summer"]);
     ("min_temp", [lit 0; lit 20; lit 10; lit 30]);
     ("max_temp", [lit 1; lit 21; lit 11; lit 31]);
     ("pressure", [lit 700; lit 800; lit 720; lit 820])].

Definition sample_raw : DataFrame :=
  mkDataFrame (seq 0 (nrows sample_columns)) sample_columns.

Definition empty_frame : DataFrame := mkDataFrame [] [].

Definition single_row_output : DataFrame :=
  Eval vm_compute in
    match snd (load_and_clean_data sample_parse ascii_strip ascii_lower iso_date sample_fs
                 "data/single-row.csv") with
    | Ok df => df
    | Raise _ => empty_frame
    end.

Definition sample_output : DataFrame :=
  Eval vm_compute in
    match snd (load_and_clean_data sample_parse ascii_strip ascii_lower iso_date sample_fs
                 "data/mars-weather.csv") with
    | Ok df => df
    | Raise _ => empty_frame
    end.

(** The sample source where [main] looks for it, for a script stored as
    [/srv/mars/src/main.py]; a second script has its data file missing and
    a third one has the source without ls. *)
Definition site_fs : filesystem :=
  fun path =>
    if String.eqb path "/srv/mars/src/../data/mars-weather.csv"
    then Some (File "sample")
    else if String.eqb path "/srv/bare/src/../data/mars-weather.csv"
    then Some (File "sample without ls")
    else None.

(** Rows out of solar-longitude order, two of them with the same ls. *)
Definition polar_example : DataFrame :=
  mkDataFrame [0; 3; 4; 7]
    [("min_temp", [lit (-75); lit (-70); lit (-80); lit (-71)]);
     ("max_temp", [lit (-2); lit (-5); lit (-9); lit (-6)]);
     ("pressure", [lit 739; lit 900; lit 850; lit 910]);
     ("ls", [lit 270; lit 155; lit 359; lit 155])].

(** The polar example without its pressure column. *)
Definition polar_example_no_pressure : DataFrame :=
  mkDataFrame (index polar_example)
    (filter (fun c => negb (String.eqb (fst c) "pressure")) (data polar_example)).

(** A source with its header and no row. *)
Definition header_only_columns : list (string * Series) :=
  map (fun c => (fst c, [])) sample_columns.

Definition header_only_parse (content : string)
  : result (list (string * Series)) :=
  Ok header_only_columns.

Definition header_only_fs : filesystem :=
  fun path => Some (File "").

(** ** Predicates of the specification *)

(** A number outside the canonical domain [0, 360). *)
Definition out_of_range (x : number) : Prop :=
  match x with
  | Fin q => (q < 0 \/ 360 <= q)%Q
  | _ => True
  end.

(** The name a source label ends up with: trimmed, lowercased, and the
    alias replaced. *)
Definition canonical (strip lower : string -> string) (s : string) : string :=
  let s := lower (strip s) in
  if String.eqb s "atmo_opacity" then "atmospheric_opacity" else s.

(** Two string functions agree on ASCII text. *)
Definition agree_on_ascii (f g : string -> string) : Prop :=
  forall s, is_ascii s = true -> f s = g s.

Definition derived : list string := ["season"; "year"; "day"].

(** The frame after lines 18 and 20, on which every lookup by name runs. *)
Definition relabelled (strip lower : string -> string) (df : DataFrame)
  : DataFrame :=
  rename "atmo_opacity" "atmospheric_opacity" (normalize_columns strip lower df).

(** Row [k] of a frame has a value in each of the five required fields. *)
Definition present (df : DataFrame) (k : nat) : Prop :=
  forall name c, In name required -> In (name, c) (data df) ->
                 isna (at_row k c) = false.


Definition cell_eq_dec (a b : cell) : {a = b} + {a <> b}.
Proof. repeat decide equality. Defined.

Definition measures : list string := ["min_temp"; "max_temp"; "pressure"].


Definition season_labels : list string :=
  ["Spring"; "Summer"; "Autumn"; "Winter"; "Unknown"].

(** Every column is as long as the list of row labels. *)
Definition rectangular (df : DataFrame) : Prop :=
  Forall (fun c => length (snd c) = length (index df)) (data df).

Definition is_time (c : cell) : Prop := exists t, c = Time t.

Definition is_number (c : cell) : bool :=
  match c with
  | Num _ => true
  | _ => false
  end.

(** The numbers of a numeric column. *)
Definition numbers_of (c : Series) : list number :=
  map (fun v => match v with Num x => x | _ => NaN end) c.

(** The bar heights of one measure: for each key, the mean over the rows
    carrying it. *)
Definition bars (float64_mean : list number -> number)
  (k : Series) (groups : list cell) (c : Series) : Series :=
  map (fun g => mean float64_mean
                  (map (fun i => nth i (numbers_of c) NaN) (group_rows k g)))
    groups.

(** A rational that binary64 holds exactly: an integer below 2^53 in
    magnitude times a power of two within the exponent range. *)
Definition binary64 (q : Q) : Prop :=
  exists m e : Z,
    (Z.abs m < 2 ^ 53)%Z /\ (-1074 <= e <= 971)%Z
    /\ (q == inject_Z m * 2 ^ e)%Q.


(** What float64 arithmetic guarantees in whatever order the additions
    are made: on whole numbers whose magnitudes add up to less than 2^53
    every partial sum is exact, and so is the quotient by their count when
    binary64 holds it. *)
Definition exact_on_small_integers (float64_mean : list number -> number) : Prop :=
  forall zs : list Z,
    zs <> [] ->
    (fold_right Z.add 0 (map Z.abs zs) < 2 ^ 53)%Z ->
    binary64 (arithmetic_mean (map inject_Z zs)) ->
    exists r, float64_mean (map (fun z => Fin (inject_Z z)) zs) = Fin r
              /\ (r == arithmetic_mean (map inject_Z zs))%Q.

(** * Properties *)

(** ** The classifier *)

Lemma bind_ok {A B : Type} (m : result A) (k : A -> result B) (b : B) :
  bind m k = Ok b -> exists a, m = Ok a /\ k a = Ok b.
Proof. destruct m as [a|e]; simpl; intros H; [eauto | discriminate]. Qed.

(** Opens one successful [bind] in hypothesis [H]. *)
Ltac bind_inv H :=
  let x := fresh "x" in
  let Hx := fresh "Hx" in
  apply bind_ok in H; destruct H as [x [Hx H]].

Lemma chained_fin (lo hi : Z) (q : Q) :
  chained lo (Num (Fin q)) hi
  = Ok (Qle_bool (inject_Z lo) q && negb (Qle_bool (inject_Z hi) q)).
Proof.
  unfold chained, lit; simpl.
  destruct (Qle_bool (inject_Z lo) q); reflexivity.
Qed.

Lemma between_spec (lo hi : Z) (q : Q) :
  Qle_bool (inject_Z lo) q && negb (Qle_bool (inject_Z hi) q) = true
  <-> (inject_Z lo <= q /\ q < inject_Z hi)%Q.
Proof.
  rewrite andb_true_iff, negb_true_iff, Qle_bool_iff.
  split; intros [H1 H2]; split; trivial.
  - apply Qnot_le_lt. intros H. apply Qle_bool_iff in H. congruence.
  - destruct (Qle_bool (inject_Z hi) q) eqn:E; trivial.
    apply Qle_bool_iff in E. exfalso. apply (Qlt_not_le _ _ H2 E).
Qed.

Lemma between_false (lo hi : Z) (q : Q) :
  Qle_bool (inject_Z lo) q && negb (Qle_bool (inject_Z hi) q) = false
  <-> ~ (inject_Z lo <= q /\ q < inject_Z hi)%Q.
Proof.
  rewrite <- between_spec.
  destruct (Qle_bool (inject_Z lo) q && negb (Qle_bool (inject_Z hi) q));
    split; intros H; try reflexivity; try discriminate.
  exfalso. apply H. reflexivity.
Qed.

Lemma assign_mars_season_fin (q : Q) :
  assign_mars_season (Num (Fin q))
  = Ok (if Qle_bool 0 q && negb (Qle_bool 90 q) then "Spring"
        else if Qle_bool 90 q && negb (Qle_bool 180 q) then "Summer"
        else if Qle_bool 180 q && negb (Qle_bool 270 q) then "Autumn"
        else if Qle_bool 270 q && negb (Qle_bool 360 q) then "Winter"
        else "Unknown").
Proof.
  unfold assign_mars_season.
  rewrite !chained_fin.
  change (inject_Z 0) with 0%Q. change (inject_Z 90) with 90%Q.
  change (inject_Z 180) with 180%Q. change (inject_Z 270) with 270%Q.
  change (inject_Z 360) with 360%Q.
  cbn [bind].
  destruct (Qle_bool 0 q && negb (Qle_bool 90 q)); [reflexivity|].
  destruct (Qle_bool 90 q && negb (Qle_bool 180 q)); [reflexivity|].
  destruct (Qle_bool 180 q && negb (Qle_bool 270 q)); [reflexivity|].
  destruct (Qle_bool 270 q && negb (Qle_bool 360 q)); reflexivity.
Qed.

(** C1. On a finite number the classifier answers Spring exactly on
    [0, 90), Summer exactly on [90, 180), Autumn exactly on [180, 270) and
    Winter exactly on [270, 360): lower bounds inclusive, upper bounds
    exclusive, so the four intervals are disjoint and cover [0, 360), and
    90 is Summer, not Spring. *)
Theorem assign_mars_season_intervals (q : Q) :
  (assign_mars_season (Num (Fin q)) = Ok "Spring" <-> (0 <= q /\ q < 90)%Q) /\
  (assign_mars_season (Num (Fin q)) = Ok "Summer" <-> (90 <= q /\ q < 180)%Q) /\
  (assign_mars_season (Num (Fin q)) = Ok "Autumn" <-> (180 <= q /\ q < 270)%Q) /\
  (assign_mars_season (Num (Fin q)) = Ok "Winter" <-> (270 <= q /\ q < 360)%Q) /\
  assign_mars_season (lit 90) = Ok "Summer".
Proof.
  rewrite assign_mars_season_fin.
  pose proof (between_spec 0 90 q) as S1. pose proof (between_false 0 90 q) as F1.
  pose proof (between_spec 90 180 q) as S2. pose proof (between_false 90 180 q) as F2.
  pose proof (between_spec 180 270 q) as S3. pose proof (between_false 180 270 q) as F3.
  pose proof (between_spec 270 360 q) as S4. pose proof (between_false 270 360 q) as F4.
  change (inject_Z 0) with 0%Q in *. change (inject_Z 90) with 90%Q in *.
  change (inject_Z 180) with 180%Q in *. change (inject_Z 270) with 270%Q in *.
  change (inject_Z 360) with 360%Q in *.
  destruct (Qle_bool 0 q && negb (Qle_bool 90 q));
  destruct (Qle_bool 90 q && negb (Qle_bool 180 q));
  destruct (Qle_bool 180 q && negb (Qle_bool 270 q));
  destruct (Qle_bool 270 q && negb (Qle_bool 360 q));
  repeat match goal with
    | H : true = true <-> _ |- _ => destruct H as [H _]; specialize (H eq_refl)
    | H : false = false <-> _ |- _ => destruct H as [H _]; specialize (H eq_refl)
    | H : true = false <-> _ |- _ => clear H
    | H : false = true <-> _ |- _ => clear H
    end;
  repeat split; intros; try discriminate; try reflexivity; try tauto;
  try (exfalso; lra).
Qed.

Lemma assign_mars_season_num (x : number) :
  exists label, In label season_labels /\ assign_mars_season (Num x) = Ok label.
Proof.
  destruct x as [q| | |];
    try (exists "Unknown"; split; [simpl; tauto | reflexivity]).
  rewrite assign_mars_season_fin. unfold season_labels.
  destruct (Qle_bool 0 q && negb (Qle_bool 90 q));
    [eexists; split; [|reflexivity]; simpl; tauto|].
  destruct (Qle_bool 90 q && negb (Qle_bool 180 q));
    [eexists; split; [|reflexivity]; simpl; tauto|].
  destruct (Qle_bool 180 q && negb (Qle_bool 270 q));
    [eexists; split; [|reflexivity]; simpl; tauto|].
  destruct (Qle_bool 270 q && negb (Qle_bool 360 q));
    eexists; (split; [|reflexivity]); simpl; tauto.
Qed.

(** C4. On every number, finite or not, the classifier returns one of the
    five labels and never raises; it returns Unknown exactly on the numbers
    outside [0, 360): the negative ones, those from 360 on (360 itself
    included), both infinities and NaN. *)
Theorem assign_mars_season_never_raises (x : number) :
  (exists label, In label season_labels /\ assign_mars_season (Num x) = Ok label) /\
  (assign_mars_season (Num x) = Ok "Unknown" <-> out_of_range x) /\
  assign_mars_season (lit (-5)) = Ok "Unknown" /\
  assign_mars_season (lit 360) = Ok "Unknown" /\
  assign_mars_season (lit 1000) = Ok "Unknown" /\
  assign_mars_season (Num NaN) = Ok "Unknown".
Proof.
  split; [|split; [|repeat split]].
  - apply assign_mars_season_num.
  - destruct x as [q| | |]; try (simpl; split; intros; [exact I | reflexivity]).
    rewrite assign_mars_season_fin. unfold out_of_range.
    pose proof (between_spec 0 90 q) as S1. pose proof (between_false 0 90 q) as F1.
    pose proof (between_spec 90 180 q) as S2. pose proof (between_false 90 180 q) as F2.
    pose proof (between_spec 180 270 q) as S3. pose proof (between_false 180 270 q) as F3.
    pose proof (between_spec 270 360 q) as S4. pose proof (between_false 270 360 q) as F4.
    change (inject_Z 0) with 0%Q in *. change (inject_Z 90) with 90%Q in *.
    change (inject_Z 180) with 180%Q in *. change (inject_Z 270) with 270%Q in *.
    change (inject_Z 360) with 360%Q in *.
    destruct (Qle_bool 0 q && negb (Qle_bool 90 q));
    destruct (Qle_bool 90 q && negb (Qle_bool 180 q));
    destruct (Qle_bool 180 q && negb (Qle_bool 270 q));
    destruct (Qle_bool 270 q && negb (Qle_bool 360 q));
    repeat match goal with
      | H : true = true <-> _ |- _ => destruct H as [H _]; specialize (H eq_refl)
      | H : false = false <-> _ |- _ => destruct H as [H _]; specialize (H eq_refl)
      | H : true = false <-> _ |- _ => clear H
      | H : false = true <-> _ |- _ => clear H
      end;
    split; intros; try discriminate; try reflexivity; try (exfalso; lra).
    destruct (Qlt_le_dec q 0); [left; trivial|].
    destruct (Qlt_le_dec q 360); [|right; trivial].
    exfalso.
    destruct (Qlt_le_dec q 90); [apply F1; split; trivial|].
    destruct (Qlt_le_dec q 180); [apply F2; split; trivial|].
    destruct (Qlt_le_dec q 270); [apply F3; split; trivial|].
    apply F4; split; trivial.
Qed.

(** ** Table operations *)

Lemma has_label_In (name : string) (names : list string) :
  has_label name names = true <-> In name names.
Proof.
  unfold has_label. rewrite existsb_exists. split.
  - intros [x [Hin Heq]]. apply String.eqb_eq in Heq. now subst.
  - intros H. exists name. split; [assumption | apply String.eqb_refl].
Qed.

Lemma has_label_false (name : string) (names : list string) :
  has_label name names = false <-> ~ In name names.
Proof.
  rewrite <- has_label_In. destruct (has_label name names); split; intros H;
    try reflexivity; try discriminate; try congruence.
Qed.

Lemma complete_spec (df : DataFrame) (subset : list string) (k : nat) :
  complete df subset k = true <->
  (forall name c, In name subset -> In (name, c) (data df) ->
                  isna (at_row k c) = false).
Proof.
  unfold complete. rewrite forallb_forall. split.
  - intros H name c Hs Hin. specialize (H _ Hin). simpl in H.
    apply has_label_In in Hs. rewrite Hs in H. simpl in H.
    unfold notna in H. now apply negb_true_iff in H.
  - intros H [name c] Hin. simpl.
    destruct (has_label name subset) eqn:E; [|reflexivity]. simpl.
    unfold notna. apply negb_true_iff. apply (H name c); trivial.
    now apply has_label_In.
Qed.

Lemma index_setitem df name s : index (setitem df name s) = index df.
Proof. unfold setitem. now destruct (has_label name (columns df)). Qed.

Lemma select_setitem_other df name s other :
  other <> name -> select other (setitem df name s) = select other df.
Proof.
  intros Hne. unfold select, setitem.
  destruct (has_label name (columns df)); simpl.
  - induction (data df) as [|[n c] l IH]; simpl; [reflexivity|].
    destruct (String.eqb n name) eqn:E; simpl.
    + apply String.eqb_eq in E. subst n.
      destruct (String.eqb name other) eqn:E'.
      * apply String.eqb_eq in E'. congruence.
      * exact IH.
    + destruct (String.eqb n other); simpl; now rewrite IH.
  - rewrite filter_app, map_app. simpl.
    destruct (String.eqb name other) eqn:E'.
    + apply String.eqb_eq in E'. congruence.
    + simpl. now rewrite app_nil_r.
Qed.

Lemma getitem_setitem_other df name s other :
  other <> name -> getitem (setitem df name s) other = getitem df other.
Proof. intros H. unfold getitem. now rewrite select_setitem_other. Qed.

Lemma In_setitem_other df name s other c :
  other <> name ->
  (In (other, c) (data (setitem df name s)) <-> In (other, c) (data df)).
Proof.
  intros Hne. unfold setitem.
  destruct (has_label name (columns df)); simpl.
  - rewrite in_map_iff. split.
    + intros [[n c'] [Heq Hin]]. simpl in Heq.
      destruct (String.eqb n name) eqn:E.
      * apply String.eqb_eq in E. inversion Heq. congruence.
      * inversion Heq. now subst.
    + intros Hin. exists (other, c). simpl.
      destruct (String.eqb other name) eqn:E.
      * apply String.eqb_eq in E. congruence.
      * now split.
  - rewrite in_app_iff. simpl. split.
    + intros [H|[H|[]]]; [assumption|]. inversion H. congruence.
    + intros H. now left.
Qed.

Lemma In_setitem_same df name s c :
  In (name, c) (data (setitem df name s)) -> c = s.
Proof.
  unfold setitem. destruct (has_label name (columns df)) eqn:Hl; simpl.
  - rewrite in_map_iff. intros [[n c'] [Heq Hin]]. simpl in Heq.
    destruct (String.eqb n name) eqn:E.
    + now inversion Heq.
    + inversion Heq. subst. rewrite String.eqb_refl in E. discriminate.
  - rewrite in_app_iff. simpl. intros [H|[H|[]]].
    + apply has_label_false in Hl. exfalso. apply Hl.
      unfold columns. apply in_map_iff. now exists (name, c).
    + now inversion H.
Qed.

Lemma has_label_setitem df name s :
  has_label name (columns (setitem df name s)) = true.
Proof.
  unfold setitem. destruct (has_label name (columns df)) eqn:Hl.
  - unfold columns in *. simpl. rewrite map_map.
    erewrite map_ext; [exact Hl|].
    intros [n c]. simpl. now destruct (String.eqb n name).
  - apply has_label_In. unfold columns. simpl. rewrite map_app, in_app_iff.
    right. simpl. now left.
Qed.

Lemma columns_setitem df name s :
  exists extra, columns (setitem df name s) = columns df ++ extra
                /\ incl extra [name].
Proof.
  unfold setitem. destruct (has_label name (columns df)).
  - exists []. split; [|intros x []]. rewrite app_nil_r. unfold columns. simpl.
    rewrite map_map. apply map_ext. intros [n c]. simpl.
    now destruct (String.eqb n name).
  - exists [name]. split; [|apply incl_refl]. unfold columns. simpl.
    now rewrite map_app.
Qed.

Lemma select_take df keep name :
  select name (take df keep)
  = map (fun c => map (fun k => at_row k c) keep) (select name df).
Proof.
  unfold select, take. simpl.
  induction (data df) as [|[n c] l IH]; simpl; [reflexivity|].
  destruct (String.eqb n name); simpl; now rewrite IH.
Qed.

Lemma columns_take df keep : columns (take df keep) = columns df.
Proof.
  unfold columns, take. simpl. rewrite map_map. now apply map_ext.
Qed.

Lemma In_take df keep name c' :
  In (name, c') (data (take df keep)) <->
  exists c, In (name, c) (data df) /\ c' = map (fun k => at_row k c) keep.
Proof.
  unfold take. simpl. rewrite in_map_iff. split.
  - intros [[n c] [Heq Hin]]. simpl in Heq. inversion Heq. subst. now exists c.
  - intros [c [Hin ->]]. now exists (name, c).
Qed.

Lemma dropna_ok df subset out :
  dropna df subset = Ok out ->
  out = take df (filter (complete df subset) (seq 0 (length (index df))))
  /\ forall name, In name subset -> In name (columns df).
Proof.
  unfold dropna.
  destruct (filter (fun n => negb (has_label n (columns df))) subset) eqn:E;
    [|discriminate].
  intros H. inversion H. split; [reflexivity|].
  intros name Hin. apply has_label_In.
  destruct (has_label name (columns df)) eqn:Hl; [reflexivity|].
  assert (In name (filter (fun n => negb (has_label n (columns df))) subset)) as Hf.
  { apply filter_In. split; [assumption|]. now rewrite Hl. }
  rewrite E in Hf. destruct Hf.
Qed.

Lemma mapM_Forall2 {A B : Type} (f : A -> result B) (l : list A) (bs : list B) :
  mapM f l = Ok bs <-> Forall2 (fun a b => f a = Ok b) l bs.
Proof.
  revert bs. induction l as [|a l IH]; intros bs; simpl.
  - split; intros H; [inversion H; constructor | inversion H; reflexivity].
  - split.
    + intros H. apply bind_ok in H. destruct H as [b [Hb H]].
      apply bind_ok in H. destruct H as [bs' [Hbs H]].
      inversion H. subst. constructor; [assumption|]. now apply IH.
    + intros H. inversion H as [|? b ? bs' Hb Hrest]. subst.
      rewrite Hb. simpl. apply IH in Hrest. now rewrite Hrest.
Qed.

Lemma columns_setitem_has df name s :
  has_label name (columns df) = true -> columns (setitem df name s) = columns df.
Proof.
  intros Hl. unfold setitem. rewrite Hl. unfold columns. simpl.
  rewrite map_map. apply map_ext. intros [n c]. simpl.
  now destruct (String.eqb n name).
Qed.

Lemma select_In df name c :
  In c (select name df) <-> In (name, c) (data df).
Proof.
  unfold select. rewrite in_map_iff. split.
  - intros [[n c'] [Heq Hin]]. simpl in Heq. subst c'.
    apply filter_In in Hin. destruct Hin as [Hin E]. simpl in E.
    apply String.eqb_eq in E. now subst.
  - intros Hin. exists (name, c). split; [reflexivity|].
    apply filter_In. split; [assumption|]. simpl. apply String.eqb_refl.
Qed.

Lemma getitem_ok df name c :
  getitem df name = Ok c -> select name df = [c].
Proof.
  unfold getitem. destruct (select name df) as [|c0 [|c1 r]]; try discriminate.
  intros H. now inversion H.
Qed.

Lemma getitem_has_label df name c :
  getitem df name = Ok c -> has_label name (columns df) = true.
Proof.
  intros H. apply getitem_ok in H. apply has_label_In. unfold columns.
  apply in_map_iff. exists (name, c). split; [reflexivity|].
  apply select_In. rewrite H. now left.
Qed.

Lemma columns_setitem_mono df name s other :
  In other (columns df) -> In other (columns (setitem df name s)).
Proof.
  intros H. destruct (columns_setitem df name s) as [extra [-> _]].
  apply in_app_iff. now left.
Qed.

Lemma dropna_total df subset :
  (forall name, In name subset -> In name (columns df)) ->
  dropna df subset
  = Ok (take df (filter (complete df subset) (seq 0 (length (index df))))).
Proof.
  intros H. unfold dropna.
  destruct (filter (fun n => negb (has_label n (columns df))) subset)
    as [|k ks] eqn:E; [reflexivity|].
  assert (In k (filter (fun n => negb (has_label n (columns df))) subset)) as Hk
    by (rewrite E; now left).
  apply filter_In in Hk. destruct Hk as [Hk1 Hk2].
  apply negb_true_iff, has_label_false in Hk2. exfalso. apply Hk2. now apply H.
Qed.

Lemma select_setitem_same df name s :
  has_label name (columns df) = true ->
  select name (setitem df name s) = map (fun _ => s) (select name df).
Proof.
  intros Hl. unfold setitem. rewrite Hl. unfold select. simpl.
  induction (data df) as [|[n c] l IH]; simpl; [reflexivity|].
  destruct (String.eqb n name) eqn:E; simpl; rewrite E; simpl; now rewrite IH.
Qed.

Lemma mapM_total {A B : Type} (f : A -> result B) (l : list A) :
  Forall (fun a => exists b, f a = Ok b) l -> exists bs, mapM f l = Ok bs.
Proof.
  induction 1 as [|a l [b Hb] _ [bs Hbs]]; simpl.
  - now exists [].
  - rewrite Hb, Hbs. simpl. now exists (b :: bs).
Qed.

Lemma at_row_map (f : cell -> cell) (s : Series) (k : nat) :
  k < length s -> at_row k (map f s) = f (at_row k s).
Proof.
  intros H. unfold at_row.
  rewrite (nth_indep (map f s) (Num NaN) (f (Num NaN)))
    by (now rewrite length_map).
  apply map_nth.
Qed.

Lemma apply_total (l : Series) :
  Forall (fun c => exists x, c = Num x) l ->
  exists s, apply assign_mars_season l = Ok s.
Proof.
  intros H. unfold apply. apply mapM_total.
  eapply Forall_impl; [|exact H]. intros c [x ->].
  destruct (assign_mars_season_num x) as [label [_ Hl]].
  rewrite Hl. simpl. eauto.
Qed.

Section LoaderProperties.

Variable parse_csv : string -> result (list (string * Series)).
Variable strip lower : string -> string.
Variable datetime_of : Series -> cell -> option Timestamp.

Lemma prepared_data df :
  data (rename "atmo_opacity" "atmospheric_opacity" (normalize_columns strip lower df))
  = map (fun c => (canonical strip lower (fst c), snd c)) (data df).
Proof.
  unfold rename, normalize_columns, set_columns. simpl.
  rewrite map_map. apply map_ext. intros [n c]. reflexivity.
Qed.

Lemma prepared_columns df :
  columns (rename "atmo_opacity" "atmospheric_opacity" (normalize_columns strip lower df))
  = map (canonical strip lower) (columns df).
Proof.
  unfold columns. rewrite prepared_data, !map_map. reflexivity.
Qed.

Lemma dated_ok df dt :
  dated strip lower datetime_of df = Ok dt ->
  exists d,
    getitem (rename "atmo_opacity" "atmospheric_opacity" (normalize_columns strip lower df))
      "terrestrial_date" = Ok d
    /\ dt = setitem (rename "atmo_opacity" "atmospheric_opacity" (normalize_columns strip lower df))
              "terrestrial_date" (to_datetime datetime_of d).
Proof.
  unfold dated. intros H. bind_inv H. inversion H. now exists x.
Qed.

Lemma index_dated df dt : dated strip lower datetime_of df = Ok dt -> index dt = index df.
Proof.
  intros H. apply dated_ok in H. destruct H as [d [_ ->]].
  now rewrite index_setitem.
Qed.

Lemma columns_dated df dt :
  dated strip lower datetime_of df = Ok dt -> columns dt = map (canonical strip lower) (columns df).
Proof.
  intros H. apply dated_ok in H. destruct H as [d [Hd ->]].
  rewrite columns_setitem_has; [apply prepared_columns|].
  now apply getitem_has_label in Hd.
Qed.

(** The shape of a successful run of lines 18 to 28. *)
Lemma clean_ok df out :
  clean strip lower datetime_of df = Ok out ->
  exists dt l s y d,
    dated strip lower datetime_of df = Ok dt
    /\ (forall name, In name required -> In name (columns dt))
    /\ getitem (take dt (filter (complete dt required) (seq 0 (length (index df))))) "ls" = Ok l
    /\ apply assign_mars_season l = Ok s
    /\ out = setitem (setitem (setitem
               (take dt (filter (complete dt required) (seq 0 (length (index df)))))
               "season" s) "year" y) "day" d.
Proof.
  unfold clean. intros H.
  bind_inv H. bind_inv H. bind_inv H. bind_inv H. bind_inv H. bind_inv H.
  inversion H. clear H.
  apply dropna_ok in Hx0. destruct Hx0 as [-> Hlabels].
  rewrite index_setitem in *.
  exists (setitem (rename "atmo_opacity" "atmospheric_opacity" (normalize_columns strip lower df))
            "terrestrial_date" (to_datetime datetime_of x)),
    x1, x2, (dt_year x3), (dt_strftime x4).
  repeat split; trivial.
  unfold dated. rewrite Hx. reflexivity.
Qed.

Lemma load_ok fs path out :
  snd (load_and_clean_data parse_csv strip lower datetime_of fs path) = Ok out ->
  exists content cols,
    fs path = Some (File content)
    /\ parse_csv content = Ok cols
    /\ clean strip lower datetime_of (mkDataFrame (seq 0 (nrows cols)) cols) = Ok out.
Proof.
  unfold load_and_clean_data, read_csv.
  destruct (fs path) as [[content|]|] eqn:E; simpl; try discriminate.
  intros H. bind_inv H. bind_inv Hx. inversion Hx. subst x.
  now exists content, x0.
Qed.

Lemma apply_labels (l s : Series) :
  apply assign_mars_season l = Ok s ->
  Forall2 (fun x y => exists label, assign_mars_season x = Ok label /\ y = Str label) l s.
Proof.
  unfold apply. intros H. apply mapM_Forall2 in H.
  induction H as [|x y l s Hxy _ IH]; constructor; [|exact IH].
  bind_inv Hxy. inversion Hxy. now exists x0.
Qed.

Lemma not_derived_required name : In name required -> ~ In name derived.
Proof.
  unfold required, derived. simpl.
  intros [H|[H|[H|[H|[H|[]]]]]]; subst; intros [H|[H|[H|[]]]]; discriminate.
Qed.

Lemma In_derived_columns df s y d name c :
  ~ In name derived ->
  (In (name, c)
      (data (setitem (setitem (setitem df "season" s) "year" y) "day" d))
   <-> In (name, c) (data df)).
Proof.
  intros Hn. unfold derived in Hn. simpl in Hn.
  rewrite !In_setitem_other; [reflexivity| | |]; intros ->; tauto.
Qed.

(** What lines 22 to 28 keep of the dated frame. *)
Lemma clean_rows df out :
  clean strip lower datetime_of df = Ok out ->
  exists dt,
    dated strip lower datetime_of df = Ok dt
    /\ index out = map (fun k => nth k (index df) 0)
                     (filter (complete dt required) (seq 0 (length (index df))))
    /\ (forall name c, ~ In name derived ->
          (In (name, c) (data out) <->
           exists c0, In (name, c0) (data dt)
                      /\ c = map (fun k => at_row k c0)
                               (filter (complete dt required)
                                  (seq 0 (length (index df)))))).
Proof.
  intros H. apply clean_ok in H.
  destruct H as [dt [l [s [y [d [Hd [Hlab [Hl [Hs ->]]]]]]]]].
  exists dt. split; [assumption|]. split.
  - rewrite !index_setitem. unfold take. simpl.
    now rewrite (index_dated _ _ Hd).
  - intros name c Hn. rewrite In_derived_columns by assumption.
    apply In_take.
Qed.

(** C2. A row of the source is in the output exactly when, once the dates
    are parsed, its five required fields all hold a value; the surviving
    rows keep their order, and every column of the dated frame other than
    the three derived ones is carried over with the entries of exactly
    those rows. *)
Theorem load_keeps_exactly_complete_rows fs path content cols out :
  fs path = Some (File content) ->
  parse_csv content = Ok cols ->
  snd (load_and_clean_data parse_csv strip lower datetime_of fs path) = Ok out ->
  exists dt,
    dated strip lower datetime_of (mkDataFrame (seq 0 (nrows cols)) cols) = Ok dt
    /\ (forall i, In i (index out) <-> i < nrows cols /\ present dt i)
    /\ index out = filter (complete dt required) (seq 0 (nrows cols))
    /\ (forall name c, In (name, c) (data dt) -> ~ In name derived ->
          In (name, map (fun i => at_row i c) (index out)) (data out)).
Proof.
  intros Hfs Hp H. apply load_ok in H.
  destruct H as [content' [cols' [Hfs' [Hp' H]]]].
  rewrite Hfs in Hfs'. inversion Hfs'. subst content'.
  rewrite Hp in Hp'. inversion Hp'. subst cols'.
  apply clean_rows in H. destruct H as [dt [Hd [Hi Hc]]].
  simpl in Hi, Hc. rewrite length_seq in Hi, Hc.
  assert (index out = filter (complete dt required) (seq 0 (nrows cols))) as Hidx.
  { rewrite Hi. rewrite <- (map_id (filter _ _)) at 2.
    apply map_ext_in. intros k Hk. apply filter_In in Hk.
    destruct Hk as [Hk _]. apply in_seq in Hk.
    rewrite seq_nth by lia. reflexivity. }
  exists dt. split; [assumption|]. split; [|split; [assumption|]].
  - intros i. rewrite Hidx, filter_In, in_seq, complete_spec.
    unfold present. split; intros [H1 H2]; split; trivial; lia.
  - intros name c Hin Hn. apply Hc; [assumption|].
    exists c. split; [assumption|]. now rewrite Hidx.
Qed.

(** C3. In every table the loader returns, each of the five required
    columns is there and holds no missing entry, and every column labelled
    season holds, row by row, the label the classifier gives to the entry
    of the ls column. *)
Theorem load_output_invariant fs path out :
  snd (load_and_clean_data parse_csv strip lower datetime_of fs path) = Ok out ->
  (forall name, In name required -> In name (columns out))
  /\ (forall name c, In name required -> In (name, c) (data out) ->
        Forall (fun v => isna v = false) c)
  /\ In "season" (columns out)
  /\ exists l,
       getitem out "ls" = Ok l
       /\ forall s, In ("season", s) (data out) ->
            Forall2 (fun x y => exists label,
                         assign_mars_season x = Ok label /\ y = Str label) l s.
Proof.
  intros H. apply load_ok in H. destruct H as [content [cols [_ [_ H]]]].
  pose proof (clean_rows _ _ H) as [dt' [Hd' [_ Hc]]].
  apply clean_ok in H.
  destruct H as [dt [l [s [y [d [Hd [Hlab [Hl [Hs ->]]]]]]]]].
  rewrite Hd in Hd'. inversion Hd'. subst dt'. clear Hd'.
  split; [|split; [|split]].
  - intros name Hin. specialize (Hlab _ Hin).
    unfold columns in *. apply in_map_iff in Hlab.
    destruct Hlab as [[n c] [Heq Hin']]. simpl in Heq. subst n.
    apply in_map_iff.
    exists (name, map (fun k => at_row k c)
                    (filter (complete dt required)
                       (seq 0 (length (index (mkDataFrame (seq 0 (nrows cols)) cols)))))).
    split; [reflexivity|].
    apply Hc; [now apply not_derived_required|]. now exists c.
  - intros name c Hin Hdata.
    apply Hc in Hdata; [|now apply not_derived_required].
    destruct Hdata as [c0 [Hin0 ->]].
    apply Forall_forall. intros v Hv. apply in_map_iff in Hv.
    destruct Hv as [k [<- Hk]]. apply filter_In in Hk. destruct Hk as [_ Hk].
    rewrite complete_spec in Hk. now apply (Hk name c0).
  - apply columns_setitem_mono, columns_setitem_mono.
    apply has_label_In, has_label_setitem.
  - exists l. split.
    + rewrite !getitem_setitem_other by discriminate. exact Hl.
    + intros s' Hin.
      rewrite !In_setitem_other in Hin by discriminate.
      apply In_setitem_same in Hin. subst s'. now apply apply_labels.
Qed.

(** C10. For a path that does not exist the loader raises
    [FileNotFoundError] straight after the existence test: nothing is read
    or parsed and no table is returned. *)
Theorem missing_file_raises_before_reading fs path :
  fs path = None ->
  load_and_clean_data parse_csv strip lower datetime_of fs path
  = ([OsPathExists path],
     Raise (FileNotFoundError ("❌ Data file not found at: " ++ path)%string)).
Proof.
  intros H. unfold load_and_clean_data. now rewrite H.
Qed.

Lemma canonical_pairs (l l' : list (string * Series)) :
  map snd l = map snd l' ->
  map (canonical strip lower) (map fst l) = map (canonical strip lower) (map fst l') ->
  map (fun c => (canonical strip lower (fst c), snd c)) l
  = map (fun c => (canonical strip lower (fst c), snd c)) l'.
Proof.
  revert l'. induction l as [|[n c] l IH]; intros [|[n' c'] l']; simpl;
    intros Hs Hf; try discriminate; [reflexivity|].
  injection Hs as Hc Hs'. injection Hf as Hn Hf'.
  rewrite (IH l' Hs' Hf'), Hn, Hc. reflexivity.
Qed.

Lemma prepared_eq df df' :
  index df = index df' ->
  map snd (data df) = map snd (data df') ->
  map (canonical strip lower) (columns df) = map (canonical strip lower) (columns df') ->
  rename "atmo_opacity" "atmospheric_opacity" (normalize_columns strip lower df)
  = rename "atmo_opacity" "atmospheric_opacity" (normalize_columns strip lower df').
Proof.
  intros Hi Hs Hc.
  pose proof (prepared_data df) as E. pose proof (prepared_data df') as E'.
  destruct (rename "atmo_opacity" "atmospheric_opacity" (normalize_columns strip lower df))
    as [i d] eqn:R.
  destruct (rename "atmo_opacity" "atmospheric_opacity" (normalize_columns strip lower df'))
    as [i' d'] eqn:R'.
  simpl in E, E'.
  assert (i = index df) as -> by (apply (f_equal index) in R; now simpl in R).
  assert (i' = index df') as -> by (apply (f_equal index) in R'; now simpl in R').
  rewrite E, E', Hi. f_equal. now apply canonical_pairs.
Qed.

Lemma canonical_on_ascii (s t : string) :
  agree_on_ascii strip ascii_strip -> agree_on_ascii lower ascii_lower ->
  is_ascii s = true -> is_ascii (ascii_strip s) = true ->
  canonical ascii_strip ascii_lower s = t ->
  canonical strip lower s = t.
Proof.
  intros Hs Hl Ha Hb <-. unfold canonical.
  now rewrite (Hs s Ha), (Hl _ Hb).
Qed.

(** C5. The labels are trimmed and lowercased, with Python's own
    [str.strip] and [str.lower] whatever the script of the label, and then
    the alias is renamed, before the first lookup by name: the labels of
    the result are the canonical names of the source labels followed by
    derived columns only, and the result depends on the source header
    through the canonical names alone.  As the two string methods act on
    ASCII text as [ascii_strip] and [ascii_lower] do, " Min_Temp " becomes
    min_temp and "ATMO_OPACITY" becomes atmospheric_opacity. *)
Theorem header_normalized_before_use df out :
  clean strip lower datetime_of df = Ok out ->
  (exists extra, columns out = map (canonical strip lower) (columns df) ++ extra
                 /\ incl extra derived)
  /\ (forall df', index df' = index df ->
                  map snd (data df') = map snd (data df) ->
                  map (canonical strip lower) (columns df')
                  = map (canonical strip lower) (columns df) ->
                  clean strip lower datetime_of df' = Ok out)
  /\ columns (rename "atmo_opacity" "atmospheric_opacity"
                (normalize_columns strip lower df))
     = map (canonical strip lower) (columns df)
  /\ (agree_on_ascii strip ascii_strip -> agree_on_ascii lower ascii_lower ->
      canonical strip lower " Min_Temp " = "min_temp"
      /\ canonical strip lower "ATMO_OPACITY" = "atmospheric_opacity").
Proof.
  clear parse_csv. intros H.
  split; [|split; [|split; [apply prepared_columns | ]]].
  3: { intros Hs Hl. split; apply canonical_on_ascii; trivial. }
  - apply clean_ok in H.
    destruct H as [dt [l [s [y [d [Hd [_ [_ [_ ->]]]]]]]]].
    destruct (columns_setitem (setitem (setitem
                (take dt (filter (complete dt required) (seq 0 (length (index df)))))
                "season" s) "year" y) "day" d) as [e3 [-> H3]].
    destruct (columns_setitem (setitem
                (take dt (filter (complete dt required) (seq 0 (length (index df)))))
                "season" s) "year" y) as [e2 [-> H2]].
    destruct (columns_setitem
                (take dt (filter (complete dt required) (seq 0 (length (index df)))))
                "season" s) as [e1 [-> H1]].
    rewrite columns_take, (columns_dated _ _ Hd).
    exists (e1 ++ e2 ++ e3). split; [now rewrite <- !app_assoc|].
    unfold derived. intros x Hx. rewrite !in_app_iff in Hx. simpl.
    destruct Hx as [Hx|[Hx|Hx]];
      [apply H1 in Hx | apply H2 in Hx | apply H3 in Hx];
      simpl in Hx; tauto.
  - intros df' Hi Hs Hc. rewrite <- H. unfold clean.
    now rewrite (prepared_eq df' df Hi Hs Hc).
Qed.

Lemma load_file fs path content cols :
  fs path = Some (File content) -> parse_csv content = Ok cols ->
  snd (load_and_clean_data parse_csv strip lower datetime_of fs path)
  = clean strip lower datetime_of (mkDataFrame (seq 0 (nrows cols)) cols).
Proof.
  intros Hfs Hp. unfold load_and_clean_data, read_csv.
  rewrite Hfs. simpl. now rewrite Hp.
Qed.


Lemma select_nil df name : select name df = [] <-> ~ In name (columns df).
Proof.
  split.
  - intros H Hin. unfold columns in Hin. apply in_map_iff in Hin.
    destruct Hin as [[n c] [Heq Hin]]. simpl in Heq. subst n.
    apply select_In in Hin. now rewrite H in Hin.
  - intros H. destruct (select name df) as [|c r] eqn:E; [reflexivity|].
    exfalso. apply H. unfold columns. apply in_map_iff. exists (name, c).
    split; [reflexivity|]. apply select_In. rewrite E. now left.
Qed.


Lemma dropna_missing df subset name :
  In name subset -> ~ In name (columns df) ->
  exists keys,
    dropna df subset = Raise (KeyError keys)
    /\ In name keys
    /\ forall k, In k keys -> In k subset /\ ~ In k (columns df).
Proof.
  intros Hs Hn. unfold dropna.
  assert (In name (filter (fun n => negb (has_label n (columns df))) subset)) as Hf.
  { apply filter_In. split; [assumption|].
    apply negb_true_iff. now apply has_label_false. }
  destruct (filter (fun n => negb (has_label n (columns df))) subset)
    as [|k0 ks] eqn:E; [destruct Hf|].
  exists (k0 :: ks). split; [reflexivity|]. split; [assumption|].
  intros k Hk. rewrite <- E in Hk. apply filter_In in Hk.
  destruct Hk as [Hk1 Hk2]. split; [assumption|].
  apply has_label_false. now apply negb_true_iff.
Qed.



(** C9. An entry of the date column that cannot be parsed becomes NaT, and
    the row is then left out by the drop; it never makes the loader raise:
    once the header carries the five required labels, the date and ls
    labels once each, and the ls entries are numbers, the loader returns a
    table whatever the date column holds. *)
Theorem unparseable_dates_are_dropped_not_raised fs path content cols d l :
  fs path = Some (File content) ->
  parse_csv content = Ok cols ->
  select "terrestrial_date"
    (relabelled strip lower (mkDataFrame (seq 0 (nrows cols)) cols)) = [d] ->
  select "ls" (relabelled strip lower (mkDataFrame (seq 0 (nrows cols)) cols)) = [l] ->
  (forall name, In name required ->
     In name (columns (relabelled strip lower (mkDataFrame (seq 0 (nrows cols)) cols)))) ->
  Forall (fun c => exists x, c = Num x) l ->
  exists out,
    snd (load_and_clean_data parse_csv strip lower datetime_of fs path) = Ok out
    /\ forall i, i < length d -> datetime_of d (at_row i d) = None ->
         at_row i (to_datetime datetime_of d) = NaT /\ ~ In i (index out).
Proof.
  intros Hfs Hp Hd Hl Hreq Hnum. rewrite (load_file _ _ _ _ Hfs Hp).
  set (df := mkDataFrame (seq 0 (nrows cols)) cols) in *.
  unfold relabelled in *. unfold clean.
  set (p := rename "atmo_opacity" "atmospheric_opacity" (normalize_columns strip lower df)) in *.
  assert (getitem p "terrestrial_date" = Ok d) as Gd
    by (unfold getitem; now rewrite Hd).
  rewrite Gd. cbn [bind].
  set (dt := setitem p "terrestrial_date" (to_datetime datetime_of d)).
  assert (columns dt = columns p) as Hcols
    by (apply columns_setitem_has; now apply getitem_has_label in Gd).
  assert (select "terrestrial_date" dt = [to_datetime datetime_of d]) as Sd.
  { unfold dt. rewrite select_setitem_same by (now apply getitem_has_label in Gd).
    now rewrite Hd. }
  rewrite dropna_total by (now rewrite Hcols). cbn [bind].
  assert (index dt = seq 0 (nrows cols)) as Hidx
    by (unfold dt; now rewrite index_setitem).
  rewrite Hidx, length_seq.
  set (keep := filter (complete dt required) (seq 0 (nrows cols))).
  assert (getitem (take dt keep) "ls" = Ok (map (fun k => at_row k l) keep)) as Gl.
  { unfold getitem. rewrite select_take. unfold dt.
    rewrite select_setitem_other by discriminate. now rewrite Hl. }
  rewrite Gl. cbn [bind].
  destruct (apply_total (map (fun k => at_row k l) keep)) as [s Hs].
  { apply Forall_forall. intros c Hc. apply in_map_iff in Hc.
    destruct Hc as [k [<- _]]. unfold at_row.
    destruct (nth_in_or_default k l (Num NaN)) as [Hin| ->]; [|eauto].
    rewrite Forall_forall in Hnum. now apply Hnum. }
  rewrite Hs. cbn [bind].
  assert (getitem (take dt keep) "terrestrial_date"
          = Ok (map (fun k => at_row k (to_datetime datetime_of d)) keep)) as Gt
    by (unfold getitem; now rewrite select_take, Sd).
  rewrite getitem_setitem_other by discriminate.
  rewrite Gt. cbn [bind].
  rewrite !getitem_setitem_other by discriminate.
  rewrite Gt. cbn [bind].
  eexists. split; [reflexivity|].
  intros i Hi Hnone.
  assert (at_row i (to_datetime datetime_of d) = NaT) as Hnat.
  { unfold to_datetime. rewrite at_row_map by assumption. now rewrite Hnone. }
  split; [assumption|].
  rewrite !index_setitem. unfold take. simpl. rewrite Hidx.
  intros Hin. apply in_map_iff in Hin. destruct Hin as [k [Hk Hkeep]].
  unfold keep in Hkeep. apply filter_In in Hkeep. destruct Hkeep as [Hseq Hc].
  apply in_seq in Hseq. rewrite seq_nth in Hk by lia. simpl in Hk. subst k.
  rewrite complete_spec in Hc.
  specialize (Hc "terrestrial_date" (to_datetime datetime_of d)).
  rewrite Hnat in Hc. simpl in Hc.
  assert (true = false) as Habs; [|discriminate].
  apply Hc; [unfold required; simpl; tauto|].
  apply select_In. rewrite Sd. now left.
Qed.

End LoaderProperties.

(** ** Grouping *)

Lemma num_eqb_refl x : num_eqb x x = true.
Proof. destruct x; simpl; trivial. apply Qeq_bool_iff. reflexivity. Qed.

Lemma num_eqb_trans x y z :
  num_eqb x y = true -> num_eqb y z = true -> num_eqb x z = true.
Proof.
  destruct x, y, z; simpl; try discriminate; trivial.
  rewrite !Qeq_bool_iff. intros H1 H2. now rewrite H1.
Qed.

Lemma ts_eqb_eq s t : ts_eqb s t = true <-> s = t.
Proof.
  unfold ts_eqb. rewrite !andb_true_iff, !Nat.eqb_eq, N.eqb_eq.
  destruct s, t; simpl. split.
  - intros [[[-> ->] ->] ->]. reflexivity.
  - intros H. inversion H. tauto.
Qed.

Lemma cell_eqb_refl c : cell_eqb c c = true.
Proof.
  destruct c; simpl; trivial.
  - apply num_eqb_refl.
  - apply String.eqb_refl.
  - now apply ts_eqb_eq.
Qed.

Lemma cell_eqb_trans a b c :
  cell_eqb a b = true -> cell_eqb b c = true -> cell_eqb a c = true.
Proof.
  destruct a, b, c; simpl; try discriminate; trivial.
  - apply num_eqb_trans.
  - rewrite !String.eqb_eq. congruence.
  - rewrite !ts_eqb_eq. congruence.
Qed.

Lemma cell_eqb_Str_l s c : cell_eqb (Str s) c = true <-> c = Str s.
Proof.
  destruct c; simpl; split; intros H; try discriminate.
  - apply String.eqb_eq in H. now subst.
  - inversion H. apply String.eqb_refl.
Qed.

Lemma cell_eqb_Str_r s c : cell_eqb c (Str s) = true <-> c = Str s.
Proof.
  destruct c; simpl; split; intros H; try discriminate.
  - apply String.eqb_eq in H. now subst.
  - inversion H. apply String.eqb_refl.
Qed.

Lemma unique_In l y : In y (unique l) -> In y l.
Proof.
  induction l as [|x l IH]; simpl; [trivial|].
  intros [H|H]; [now left|]. right. apply IH.
  apply filter_In in H. tauto.
Qed.

Lemma unique_NoDup l : NoDup (unique l).
Proof.
  induction l as [|x l IH]; simpl; constructor.
  - intros H. apply filter_In in H. destruct H as [_ H].
    now rewrite cell_eqb_refl in H.
  - now apply NoDup_filter.
Qed.

Lemma unique_covers l x :
  In x l -> exists y, In y (unique l) /\ cell_eqb y x = true.
Proof.
  induction l as [|a l IH]; simpl; [intros []|].
  intros [->|H].
  - exists x. split; [now left | apply cell_eqb_refl].
  - destruct (IH H) as [y [Hy Hyx]].
    destruct (cell_eqb a y) eqn:E.
    + exists a. split; [now left|]. now apply (cell_eqb_trans a y x).
    + exists y. split; [|assumption]. right. apply filter_In.
      split; [assumption|]. now rewrite E.
Qed.

Lemma unique_Str l s : In (Str s) (unique l) <-> In (Str s) l.
Proof.
  split; [apply unique_In|].
  intros H. destruct (unique_covers l _ H) as [y [Hy Hyx]].
  apply cell_eqb_Str_r in Hyx. now subst.
Qed.

Lemma insert_perm {A : Type} (le : A -> A -> bool) x l :
  Permutation (insert le x l) (x :: l).
Proof.
  induction l as [|y l IH]; simpl; [reflexivity|].
  destruct (le x y); [reflexivity|].
  rewrite IH. apply perm_swap.
Qed.

Lemma isort_perm {A : Type} (le : A -> A -> bool) l :
  Permutation (isort le l) l.
Proof.
  induction l as [|x l IH]; simpl; [reflexivity|].
  rewrite insert_perm. now constructor.
Qed.

Lemma count_Str s l :
  count (Str s) (filter notna l) = count_occ cell_eq_dec l (Str s).
Proof.
  unfold count. induction l as [|c l IH]; simpl; [reflexivity|].
  destruct (cell_eq_dec c (Str s)) as [->|Hne].
  - simpl. rewrite String.eqb_refl. simpl. now rewrite IH.
  - assert (cell_eqb (Str s) c = false) as E.
    { destruct (cell_eqb (Str s) c) eqn:E; [|reflexivity].
      apply cell_eqb_Str_l in E. contradiction. }
    destruct (notna c); cbn [filter]; [rewrite E|]; exact IH.
Qed.


Lemma combine_maps {A B C : Type} (f : A -> B) (g : A -> C) (l : list A) :
  combine (map f l) (map g l) = map (fun a => (f a, g a)) l.
Proof. induction l as [|a l IH]; simpl; [reflexivity | now rewrite IH]. Qed.

Lemma value_counts_keys (s : Series) :
  Permutation (map fst (value_counts s)) (unique (filter notna s)).
Proof.
  unfold value_counts. rewrite isort_perm, map_map. simpl.
  now rewrite map_id.
Qed.

Lemma value_counts_entry (s : Series) (k : cell) (n : nat) :
  In (k, n) (value_counts s) -> n = count k (filter notna s).
Proof.
  unfold value_counts. intros H.
  apply (Permutation_in _ (isort_perm _ _)) in H.
  apply in_map_iff in H. destruct H as [v [Heq _]]. now inversion Heq.
Qed.

(** C8. Without a column labelled atmospheric_opacity the function only
    prints its notice: no chart, no exception, no empty tally.  With the
    column it charts a tally, also when the table has no rows: the keys
    are pairwise distinct, they are exactly the values present in the
    column, and a string comes with the number of entries equal to it. *)
Theorem plot_opacity_absent_or_tally (df : DataFrame) :
  (~ In "atmospheric_opacity" (columns df) ->
   plot_opacity df = Ok (Print "⚠️ No atmospheric_opacity column found."))
  /\ (forall s, select "atmospheric_opacity" df = [s] ->
      exists keys counts,
        plot_opacity df
        = Ok (Plot "opacity_plot.html"
                (PxBar (mkDataFrame (seq 0 (length keys))
                          [("Opacity Type", keys); ("Count", counts)])
                   "Opacity Type" "Count"))
        /\ length counts = length keys
        /\ NoDup keys
        /\ (forall k, In k keys -> In k s /\ isna k = false)
        /\ (forall v, In (Str v) s -> In (Str v) keys)
        /\ (forall v n, In (Str v, n) (combine keys counts) ->
              n = num_of_nat (count_occ cell_eq_dec s (Str v)))
        /\ (s = [] -> keys = [])).
Proof.
  split.
  - intros H. unfold plot_opacity. apply has_label_false in H. now rewrite H.
  - intros s Hs.
    assert (has_label "atmospheric_opacity" (columns df) = true) as Hl.
    { apply has_label_In. unfold columns. apply in_map_iff.
      exists ("atmospheric_opacity", s). split; [reflexivity|].
      apply select_In. rewrite Hs. now left. }
    exists (map fst (value_counts s)),
      (map (fun p => num_of_nat (snd p)) (value_counts s)).
    pose proof (value_counts_keys s) as Hperm.
    split; [|split; [|split; [|split; [|split; [|split]]]]].
    + unfold plot_opacity, getitem. rewrite Hl, Hs. cbn [bind].
      now rewrite length_map.
    + now rewrite !length_map.
    + apply (Permutation_NoDup (Permutation_sym Hperm)), unique_NoDup.
    + intros k Hk. apply (Permutation_in _ Hperm) in Hk.
      apply unique_In, filter_In in Hk. destruct Hk as [Hin Hna].
      split; [assumption|]. unfold notna in Hna. now apply negb_true_iff.
    + intros v Hv. apply (Permutation_in _ (Permutation_sym Hperm)).
      apply unique_Str. apply filter_In. now split.
    + intros v n Hin. rewrite combine_maps in Hin. apply in_map_iff in Hin.
      destruct Hin as [[k m] [Heq Hin]]. simpl in Heq. inversion Heq. subst.
      apply value_counts_entry in Hin. subst m. now rewrite count_Str.
    + intros ->. reflexivity.
Qed.







Section AggregationProperties.

Variable float64_mean : list number -> number.








End AggregationProperties.

(** ** The sample source, run *)

Example season_boundaries :
  map assign_mars_season [lit 0; lit 89; lit 90; lit 179; lit 180; lit 269; lit 270; lit 359]
  = map Ok ["Spring"; "Spring"; "Summer"; "Summer"; "Autumn"; "Autumn"; "Winter"; "Winter"].
Proof. reflexivity. Qed.

Example season_just_below_90 :
  assign_mars_season (Num (Fin (89999 # 1000))) = Ok "Spring".
Proof. reflexivity. Qed.

Example season_of_text :
  assign_mars_season (Str "155") = Raise (TypeError "'<=' not supported").
Proof. reflexivity. Qed.

Example sample_output_rows :
  index sample_output = [0; 3; 4]
  /\ getitem sample_output "season" = Ok [Str "Summer"; Str "Winter"; Str "Unknown"]
  /\ getitem sample_output "day"
     = Ok [Str "2012-08-16"; Str "2014-03-09"; Str "2015-07-21"].
Proof. repeat split. Qed.

Example single_row_without_pressure :
  snd (load_and_clean_data sample_parse ascii_strip ascii_lower iso_date
      sample_fs "data/single-row.csv")
  = Ok single_row_output
  /\ index single_row_output = [].
Proof. split; reflexivity. Qed.

Example directory_is_not_a_table :
  load_and_clean_data sample_parse ascii_strip ascii_lower iso_date sample_fs "data"
  = ([OsPathExists "data"; ReadCsv "data"], Raise IsADirectoryError).
Proof. reflexivity. Qed.

Lemma binary64_integer (z : Z) (q : Q) :
  (Z.abs z < 2 ^ 53)%Z -> (q == inject_Z z)%Q -> binary64 q.
Proof.
  intros Hz Hq. exists z, 0%Z. split; [assumption|]. split; [lia|].
  rewrite Hq. cbn [Qpower]. ring.
Qed.

(** The example of the specification: with float64 arithmetic exact on
    small whole numbers, Spring comes out as 5 and Summer as 25, and no
    other season has a row. *)
Example season_example_means (float64_mean : list number -> number) :
  exact_on_small_integers float64_mean ->
  exists a1 a2 b1 b2 c1 c2 : Q,
    groupby_mean float64_mean season_example "season" measures
    = Ok (mkDataFrame [0; 1]
            [("season", [Str "Spring"; Str "Summer"]);
             ("min_temp", [Num (Fin a1); Num (Fin a2)]);
             ("max_temp", [Num (Fin b1); Num (Fin b2)]);
             ("pressure", [Num (Fin c1); Num (Fin c2)])])
    /\ (a1 == 5 /\ a2 == 25 /\ b1 == 6 /\ b2 == 26 /\ c1 == 710 /\ c2 == 810)%Q.
Proof.
  intros Hx.
  destruct (Hx [0; 10]%Z) as [a1 [Ha1 Hq1]];
    [discriminate | reflexivity | now apply (binary64_integer 5) |].
  destruct (Hx [20; 30]%Z) as [a2 [Ha2 Hq2]];
    [discriminate | reflexivity | now apply (binary64_integer 25) |].
  destruct (Hx [1; 11]%Z) as [b1 [Hb1 Hr1]];
    [discriminate | reflexivity | now apply (binary64_integer 6) |].
  destruct (Hx [21; 31]%Z) as [b2 [Hb2 Hr2]];
    [discriminate | reflexivity | now apply (binary64_integer 26) |].
  destruct (Hx [700; 720]%Z) as [c1 [Hc1 Hs1]];
    [discriminate | reflexivity | now apply (binary64_integer 710) |].
  destruct (Hx [800; 820]%Z) as [c2 [Hc2 Hs2]];
    [discriminate | reflexivity | now apply (binary64_integer 810) |].
  exists a1, a2, b1, b2, c1, c2. split.
  - cbn in Ha1, Ha2, Hb1, Hb2, Hc1, Hc2.
    unfold groupby_mean, group_means, mean. cbn.
    now rewrite Ha1, Ha2, Hb1, Hb2, Hc1, Hc2.
  - now rewrite Hq1, Hq2, Hr1, Hr2, Hs1, Hs2.
Qed.

Example no_rows_is_an_empty_tally :
  plot_opacity single_row_output
  = Ok (Plot "opacity_plot.html"
          (PxBar (mkDataFrame [] [("Opacity Type", []); ("Count", [])])
             "Opacity Type" "Count")).
Proof. reflexivity. Qed.

(** ** Instances *)

Lemma load_keeps_exactly_complete_rows_witness :
  snd (load_and_clean_data sample_parse ascii_strip ascii_lower iso_date
      sample_fs "data/mars-weather.csv")
  = Ok sample_output
  /\ exists dt,
       dated ascii_strip ascii_lower iso_date sample_raw = Ok dt
       /\ (forall i, In i (index sample_output) <-> i < 5 /\ present dt i)
       /\ index sample_output = filter (complete dt required) (seq 0 5).
Proof.
  split; [reflexivity|].
  destruct (load_keeps_exactly_complete_rows sample_parse ascii_strip ascii_lower iso_date
      sample_fs
              "data/mars-weather.csv" "sample" sample_columns sample_output
              eq_refl eq_refl eq_refl) as [dt [Hd [Hi [Hx _]]]].
  exists dt. split; [exact Hd|]. split; [exact Hi | exact Hx].
Defined.

Lemma load_output_invariant_witness :
  snd (load_and_clean_data sample_parse ascii_strip ascii_lower iso_date
      sample_fs "data/mars-weather.csv")
  = Ok sample_output
  /\ (forall name c, In name required -> In (name, c) (data sample_output) ->
        Forall (fun v => isna v = false) c)
  /\ In "season" (columns sample_output).
Proof.
  split; [reflexivity|].
  destruct (load_output_invariant sample_parse ascii_strip ascii_lower iso_date sample_fs
              "data/mars-weather.csv" sample_output eq_refl)
    as [_ [Hna [Hs _]]].
  split; [exact Hna | exact Hs].
Defined.

Lemma header_normalized_before_use_witness :
  clean ascii_strip ascii_lower iso_date sample_raw = Ok sample_output
  /\ (exists extra,
        columns sample_output
        = map (canonical ascii_strip ascii_lower) (columns sample_raw) ++ extra
        /\ incl extra derived)
  /\ canonical ascii_strip ascii_lower " Min_Temp " = "min_temp"
  /\ canonical ascii_strip ascii_lower "ATMO_OPACITY" = "atmospheric_opacity".
Proof.
  split; [reflexivity|].
  destruct (header_normalized_before_use ascii_strip ascii_lower iso_date
              sample_raw sample_output eq_refl) as [H [_ [_ H4]]].
  split; [exact H|]. apply H4; intros s _; reflexivity.
Defined.




Lemma plot_opacity_absent_or_tally_witness :
  plot_opacity season_example = Ok (Print "⚠️ No atmospheric_opacity column found.")
  /\ exists keys counts,
       plot_opacity sample_output
       = Ok (Plot "opacity_plot.html"
               (PxBar (mkDataFrame (seq 0 (length keys))
                         [("Opacity Type", keys); ("Count", counts)])
                  "Opacity Type" "Count"))
       /\ NoDup keys.
Proof.
  split.
  - apply (proj1 (plot_opacity_absent_or_tally season_example)).
    simpl. intros [H|[H|[H|[H|[]]]]]; discriminate.
  - destruct (proj2 (plot_opacity_absent_or_tally sample_output)
                [Str "Sunny"; Str "Cloudy"; Str "Sunny"] eq_refl)
      as [keys [counts [H1 [_ [H2 _]]]]].
    exists keys, counts. split; [exact H1 | exact H2].
Defined.

Lemma unparseable_dates_are_dropped_not_raised_witness :
  exists out,
    snd (load_and_clean_data sample_parse ascii_strip ascii_lower iso_date
        sample_fs "data/mars-weather.csv")
    = Ok out
    /\ ~ In 1 (index out).
Proof.
  destruct (unparseable_dates_are_dropped_not_raised sample_parse ascii_strip ascii_lower iso_date
      sample_fs
              "data/mars-weather.csv" "sample" sample_columns
              [Str "2012-08-16"; Str "not a date"; Str "2013-01-05";
               Str "2014-03-09"; Str "2015-07-21"]
              [lit 155; lit 156; lit 200; lit 270; lit 360]
              eq_refl eq_refl eq_refl eq_refl) as [out [H1 H2]].
  - intros name H. simpl in H. simpl.
    destruct H as [<-|[<-|[<-|[<-|[<-|[]]]]]]; tauto.
  - repeat constructor; eexists; reflexivity.
  - exists out. split; [exact H1|].
    apply (H2 1); [simpl; lia | reflexivity].
Defined.

Lemma missing_file_raises_before_reading_witness :
  load_and_clean_data sample_parse ascii_strip ascii_lower iso_date
      sample_fs "data/mars.csv"
  = ([OsPathExists "data/mars.csv"],
     Raise (FileNotFoundError "❌ Data file not found at: data/mars.csv")).
Proof.
  apply (missing_file_raises_before_reading sample_parse ascii_strip ascii_lower iso_date
      sample_fs
           "data/mars.csv" eq_refl).
Defined.

(** * Further properties of the loader *)

Lemma lstrip_idem l : lstrip_list (lstrip_list l) = lstrip_list l.
Proof.
  induction l as [|c l IH]; simpl; [reflexivity|].
  destruct (ascii_isspace c) eqn:E; [exact IH|]. simpl. now rewrite E.
Qed.

Lemma lstrip_fixed l :
  match l with [] => True | c :: _ => ascii_isspace c = false end ->
  lstrip_list l = l.
Proof. destruct l as [|c l]; simpl; [reflexivity|]. now intros ->. Qed.

Lemma lstrip_head l :
  match lstrip_list l with [] => True | c :: _ => ascii_isspace c = false end.
Proof.
  induction l as [|c l IH]; simpl; [exact I|].
  destruct (ascii_isspace c) eqn:E; [exact IH | exact E].
Qed.

Lemma lstrip_snoc l c :
  ascii_isspace c = false -> lstrip_list (l ++ [c]) = lstrip_list l ++ [c].
Proof.
  intros Hc. induction l as [|a l IH]; simpl.
  - now rewrite Hc.
  - destruct (ascii_isspace a); [exact IH | reflexivity].
Qed.

Lemma rstrip_head l :
  match l with [] => True | c :: _ => ascii_isspace c = false end ->
  match rev (lstrip_list (rev l)) with
  | [] => True
  | c :: _ => ascii_isspace c = false
  end.
Proof.
  destruct l as [|c l]; simpl; [trivial|]. intros Hc.
  rewrite lstrip_snoc by assumption. rewrite rev_app_distr. simpl. exact Hc.
Qed.

Lemma strip_list_idem l :
  let r := rev (lstrip_list (rev (lstrip_list l))) in
  rev (lstrip_list (rev (lstrip_list r))) = r.
Proof.
  intros r.
  assert (lstrip_list r = r) as ->.
  { apply lstrip_fixed. apply rstrip_head. apply lstrip_head. }
  unfold r. rewrite rev_involutive. now rewrite lstrip_idem.
Qed.

Lemma ascii_strip_idem s : ascii_strip (ascii_strip s) = ascii_strip s.
Proof.
  unfold ascii_strip. rewrite list_ascii_of_string_of_list_ascii.
  now rewrite strip_list_idem.
Qed.

Lemma ascii_isspace_lower c : ascii_isspace (ascii_lower_char c) = ascii_isspace c.
Proof. destruct c as [[] [] [] [] [] [] [] []]; reflexivity. Qed.

Lemma ascii_lower_char_idem c : ascii_lower_char (ascii_lower_char c) = ascii_lower_char c.
Proof. destruct c as [[] [] [] [] [] [] [] []]; reflexivity. Qed.

Lemma ascii_lower_list s :
  ascii_lower s = string_of_list_ascii (map ascii_lower_char (list_ascii_of_string s)).
Proof. induction s as [|c s IH]; simpl; [reflexivity | now rewrite IH]. Qed.

Lemma ascii_lower_idem s : ascii_lower (ascii_lower s) = ascii_lower s.
Proof.
  induction s as [|c s IH]; simpl; [reflexivity|].
  now rewrite ascii_lower_char_idem, IH.
Qed.

Lemma lstrip_map_lower l :
  lstrip_list (map ascii_lower_char l) = map ascii_lower_char (lstrip_list l).
Proof.
  induction l as [|c l IH]; simpl; [reflexivity|].
  rewrite ascii_isspace_lower. destruct (ascii_isspace c); [exact IH | reflexivity].
Qed.

Lemma ascii_strip_lower s : ascii_strip (ascii_lower s) = ascii_lower (ascii_strip s).
Proof.
  rewrite (ascii_lower_list (ascii_strip s)), ascii_lower_list. unfold ascii_strip.
  rewrite !list_ascii_of_string_of_list_ascii.
  now rewrite lstrip_map_lower, <- map_rev, lstrip_map_lower, <- map_rev.
Qed.

Lemma canonical_cases (strip lower : string -> string) s :
  canonical strip lower s = "atmospheric_opacity"
  \/ (canonical strip lower s = lower (strip s)
      /\ lower (strip s) <> "atmo_opacity").
Proof.
  unfold canonical. destruct (String.eqb (lower (strip s)) "atmo_opacity") eqn:E.
  - now left.
  - right. split; [reflexivity|]. now apply String.eqb_neq.
Qed.

Lemma canonical_not_alias (strip lower : string -> string) s :
  canonical strip lower s <> "atmo_opacity".
Proof.
  destruct (canonical_cases strip lower s) as [->|[-> Hne]];
    [discriminate | assumption].
Qed.

Lemma is_ascii_lstrip l :
  forallb (fun c => nat_of_ascii c <? 128) l = true ->
  forallb (fun c => nat_of_ascii c <? 128) (lstrip_list l) = true.
Proof.
  induction l as [|c l IH]; simpl; [trivial|].
  intros H. apply andb_true_iff in H. destruct H as [Hc Hl].
  destruct (ascii_isspace c); [now apply IH|].
  simpl. now rewrite Hc, Hl.
Qed.

Lemma is_ascii_rev l :
  forallb (fun c => nat_of_ascii c <? 128) l = true ->
  forallb (fun c => nat_of_ascii c <? 128) (rev l) = true.
Proof.
  rewrite !forallb_forall. intros H x Hx. apply H. now apply in_rev.
Qed.

Lemma is_ascii_strip s : is_ascii s = true -> is_ascii (ascii_strip s) = true.
Proof.
  unfold is_ascii, ascii_strip. intros H.
  rewrite list_ascii_of_string_of_list_ascii.
  now apply is_ascii_rev, is_ascii_lstrip, is_ascii_rev, is_ascii_lstrip.
Qed.

(** On ASCII labels the canonical name is the one [ascii_strip] and
    [ascii_lower] give. *)
Lemma canonical_agrees (strip lower : string -> string) s :
  agree_on_ascii strip ascii_strip -> agree_on_ascii lower ascii_lower ->
  is_ascii s = true ->
  canonical strip lower s = canonical ascii_strip ascii_lower s.
Proof.
  intros Hs Hl Ha. unfold canonical.
  now rewrite (Hs s Ha), (Hl _ (is_ascii_strip s Ha)).
Qed.

(** On ASCII text the canonical names have no surrounding whitespace and no
    uppercase letter. *)
Lemma ascii_canonical_normal s :
  ascii_lower (canonical ascii_strip ascii_lower s)
  = canonical ascii_strip ascii_lower s
  /\ ascii_strip (canonical ascii_strip ascii_lower s)
     = canonical ascii_strip ascii_lower s.
Proof.
  destruct (canonical_cases ascii_strip ascii_lower s) as [->|[-> Hne]].
  - split; reflexivity.
  - split; [apply ascii_lower_idem|].
    now rewrite ascii_strip_lower, ascii_strip_idem.
Qed.

Lemma mapM_length {A B : Type} (f : A -> result B) (l : list A) (bs : list B) :
  mapM f l = Ok bs -> length bs = length l.
Proof.
  intros H. apply mapM_Forall2 in H.
  induction H; simpl; [reflexivity | now f_equal].
Qed.

Lemma columns_setitem_NoDup df name s :
  NoDup (columns df) -> NoDup (columns (setitem df name s)).
Proof.
  intros H. destruct (has_label name (columns df)) eqn:E.
  - now rewrite columns_setitem_has.
  - unfold setitem. rewrite E. unfold columns in *. simpl. rewrite map_app.
    simpl. apply has_label_false in E.
    apply NoDup_app; [assumption | repeat constructor; intros [] |].
    intros x Hx [<-|[]]. contradiction.
Qed.

Lemma rectangular_setitem df name s :
  rectangular df -> length s = length (index df) ->
  rectangular (setitem df name s).
Proof.
  unfold rectangular. intros H Hs. rewrite index_setitem.
  unfold setitem. destruct (has_label name (columns df)); simpl.
  - apply Forall_map. eapply Forall_impl; [|exact H].
    intros [n c] Hc. simpl in *. now destruct (String.eqb n name).
  - apply Forall_app. split; [assumption|]. now repeat constructor.
Qed.

Lemma rectangular_take df keep : rectangular (take df keep).
Proof.
  unfold rectangular, take. simpl. apply Forall_map, Forall_forall.
  intros c _. simpl. now rewrite !length_map.
Qed.

Section LoaderFacts.

Variable parse_csv : string -> result (list (string * Series)).
Variable strip lower : string -> string.
Variable datetime_of : Series -> cell -> option Timestamp.

(** A successful run of lines 18 to 28, with every intermediate value. *)
Lemma clean_ok_explicit df out :
  clean strip lower datetime_of df = Ok out ->
  exists d l s,
    select "terrestrial_date" (relabelled strip lower df) = [d]
    /\ getitem (take (setitem (relabelled strip lower df) "terrestrial_date"
                        (to_datetime datetime_of d))
                  (filter (complete (setitem (relabelled strip lower df) "terrestrial_date"
                                       (to_datetime datetime_of d)) required)
                     (seq 0 (length (index df))))) "ls" = Ok l
    /\ apply assign_mars_season l = Ok s
    /\ out = setitem (setitem (setitem
               (take (setitem (relabelled strip lower df) "terrestrial_date"
                        (to_datetime datetime_of d))
                  (filter (complete (setitem (relabelled strip lower df) "terrestrial_date"
                                       (to_datetime datetime_of d)) required)
                     (seq 0 (length (index df)))))
               "season" s)
               "year" (dt_year (map (fun k => at_row k (to_datetime datetime_of d))
                  (filter (complete (setitem (relabelled strip lower df) "terrestrial_date"
                                       (to_datetime datetime_of d)) required)
                     (seq 0 (length (index df)))))))
               "day" (dt_strftime (map (fun k => at_row k (to_datetime datetime_of d))
                  (filter (complete (setitem (relabelled strip lower df) "terrestrial_date"
                                       (to_datetime datetime_of d)) required)
                     (seq 0 (length (index df)))))).
Proof.
  clear parse_csv. unfold clean, relabelled. intros H.
  bind_inv H. bind_inv H. bind_inv H. bind_inv H. bind_inv H. bind_inv H.
  inversion H. clear H.
  apply dropna_ok in Hx0. destruct Hx0 as [-> _].
  rewrite index_setitem in *.
  change (index (rename "atmo_opacity" "atmospheric_opacity" (normalize_columns strip lower df)))
    with (index df) in *.
  rewrite getitem_setitem_other in Hx3 by discriminate.
  rewrite !getitem_setitem_other in Hx4 by discriminate.
  pose proof (getitem_ok _ _ _ Hx) as Hsel.
  assert (getitem (take (setitem (rename "atmo_opacity" "atmospheric_opacity"
                                    (normalize_columns strip lower df))
                           "terrestrial_date" (to_datetime datetime_of x))
                     (filter (complete (setitem (rename "atmo_opacity" "atmospheric_opacity"
                                                   (normalize_columns strip lower df))
                                          "terrestrial_date" (to_datetime datetime_of x))
                                required)
                        (seq 0 (length (index df))))) "terrestrial_date"
          = Ok (map (fun k => at_row k (to_datetime datetime_of x))
                  (filter (complete (setitem (rename "atmo_opacity" "atmospheric_opacity"
                                                (normalize_columns strip lower df))
                                       "terrestrial_date" (to_datetime datetime_of x))
                             required)
                     (seq 0 (length (index df)))))) as Gt.
  { unfold getitem. rewrite select_take.
    rewrite select_setitem_same by (now apply getitem_has_label in Hx).
    now rewrite Hsel. }
  rewrite Gt in Hx3. rewrite Gt in Hx4. inversion Hx3. inversion Hx4. subst x3 x4.
  exists x, x1, x2. repeat split; assumption.
Qed.

Lemma kept_dates_are_times (dt : DataFrame) (d : Series) (k : nat) :
  In ("terrestrial_date", to_datetime datetime_of d) (data dt) ->
  complete dt required k = true ->
  is_time (at_row k (to_datetime datetime_of d)).
Proof.
  clear parse_csv. intros Hin Hc. rewrite complete_spec in Hc.
  specialize (Hc _ _ (or_introl eq_refl) Hin).
  unfold at_row in *. unfold to_datetime in *.
  destruct (nth_in_or_default k
              (map (fun c => match datetime_of d c with
                             | Some t => Time t
                             | None => NaT
                             end) d) (Num NaN)) as [Hnth|Hdef].
  - apply in_map_iff in Hnth. destruct Hnth as [c [Heq _]].
    rewrite <- Heq in *. destruct (datetime_of d c) as [t|].
    + now exists t.
    + discriminate.
  - rewrite Hdef in Hc. discriminate.
Qed.

Lemma clean_rectangular df out :
  clean strip lower datetime_of df = Ok out -> rectangular out.
Proof.
  clear parse_csv. intros H.
  apply clean_ok_explicit in H. destruct H as [d [l [s [_ [Hl [Hs ->]]]]]].
  apply mapM_length in Hs.
  set (dt := setitem (relabelled strip lower df) "terrestrial_date"
               (to_datetime datetime_of d)) in *.
  set (keep := filter (complete dt required) (seq 0 (length (index df)))) in *.
  assert (length (index (take dt keep)) = length keep) as Hi
    by (unfold take; simpl; now rewrite length_map).
  assert (length l = length keep) as Hlen.
  { apply getitem_ok in Hl. rewrite select_take in Hl.
    destruct (select "ls" dt) as [|c [|c' r]]; simpl in Hl; try discriminate.
    inversion Hl. now rewrite length_map. }
  apply rectangular_setitem; [apply rectangular_setitem;
    [apply rectangular_setitem; [apply rectangular_take|] |] |];
    rewrite ?index_setitem, Hi; unfold dt_year, dt_strftime;
    rewrite ?length_map; congruence.
Qed.

(** X2. Whatever the source, a table returned by the loader is
    rectangular: every column, the derived ones included, has exactly one
    entry per row label. *)
Theorem load_output_is_rectangular fs path out :
  snd (load_and_clean_data parse_csv strip lower datetime_of fs path) = Ok out ->
  rectangular out.
Proof.
  intros H. apply load_ok in H. destruct H as [content [cols [_ [_ H]]]].
  now apply clean_rectangular in H.
Qed.

Lemma clean_labels_NoDup df out :
  NoDup (map (canonical strip lower) (columns df)) ->
  clean strip lower datetime_of df = Ok out -> NoDup (columns out).
Proof.
  clear parse_csv. intros Hnd H.
  apply clean_ok in H. destruct H as [dt [l [s [y [d [Hd [_ [_ [_ ->]]]]]]]]].
  repeat apply columns_setitem_NoDup. rewrite columns_take.
  now rewrite (columns_dated _ _ _ _ _ Hd).
Qed.

(** X3. When no two source labels share a canonical name, no two columns
    of the returned table share a label, so every later lookup by name
    finds at most one column. *)
Theorem load_keeps_labels_unique fs path content cols out :
  fs path = Some (File content) ->
  parse_csv content = Ok cols ->
  NoDup (map (canonical strip lower) (map fst cols)) ->
  snd (load_and_clean_data parse_csv strip lower datetime_of fs path) = Ok out ->
  NoDup (columns out).
Proof.
  intros Hfs Hp Hnd H. rewrite (load_file _ _ _ _ _ _ _ _ Hfs Hp) in H.
  now apply (clean_labels_NoDup (mkDataFrame (seq 0 (nrows cols)) cols)).
Qed.

Lemma clean_labels df out name :
  clean strip lower datetime_of df = Ok out ->
  In name (columns out) ->
  In name derived \/ In name (map (canonical strip lower) (columns df)).
Proof.
  clear parse_csv. intros H Hin.
  apply clean_ok in H. destruct H as [dt [l [s [y [d [Hd [_ [_ [_ ->]]]]]]]]].
  assert (forall df n v, In name (columns (setitem df n v)) ->
                         In name (columns df) \/ name = n) as Hstep.
  { intros df0 n v Hn. destruct (columns_setitem df0 n v) as [extra [E Hi]].
    rewrite E in Hn. apply in_app_iff in Hn. destruct Hn as [Hn|Hn]; [now left|].
    right. apply Hi in Hn. simpl in Hn. destruct Hn as [Hn|[]]. now subst. }
  unfold derived.
  apply Hstep in Hin. destruct Hin as [Hin| ->]; [|left; simpl; tauto].
  apply Hstep in Hin. destruct Hin as [Hin| ->]; [|left; simpl; tauto].
  apply Hstep in Hin. destruct Hin as [Hin| ->]; [|left; simpl; tauto].
  right. now rewrite columns_take, (columns_dated _ _ _ _ _ Hd) in Hin.
Qed.

(** X4. The alias atmo_opacity never survives the loader: no column of a
    returned table carries it, whatever the source labels.  When the
    source labels are ASCII text, on which [str.strip] and [str.lower] act
    as [ascii_strip] and [ascii_lower], no label of a returned table has
    surrounding whitespace or an uppercase letter. *)
Theorem load_output_labels_are_normalized fs path content cols out name :
  fs path = Some (File content) ->
  parse_csv content = Ok cols ->
  snd (load_and_clean_data parse_csv strip lower datetime_of fs path) = Ok out ->
  In name (columns out) ->
  name <> "atmo_opacity"
  /\ (agree_on_ascii strip ascii_strip -> agree_on_ascii lower ascii_lower ->
      Forall (fun s => is_ascii s = true) (map fst cols) ->
      ascii_strip name = name /\ ascii_lower name = name).
Proof.
  intros Hfs Hp H Hin. rewrite (load_file _ _ _ _ _ _ _ _ Hfs Hp) in H.
  destruct (clean_labels _ _ _ H Hin) as [Hd|Hc].
  - unfold derived in Hd. simpl in Hd.
    destruct Hd as [<-|[<-|[<-|[]]]]; (split; [discriminate|]);
      intros _ _ _; split; reflexivity.
  - apply in_map_iff in Hc. destruct Hc as [n [<- Hn]].
    split; [apply canonical_not_alias|].
    intros Hs Hl Ha. rewrite Forall_forall in Ha.
    rewrite (canonical_agrees strip lower n Hs Hl (Ha n Hn)).
    destruct (ascii_canonical_normal n) as [E1 E2]. now split.
Qed.

Lemma assign_mars_season_cases (c : cell) :
  (exists x label, c = Num x /\ In label season_labels
                   /\ assign_mars_season c = Ok label)
  \/ (is_number c = false
      /\ assign_mars_season c = Raise (TypeError "'<=' not supported")).
Proof.
  destruct c as [x|s|t|]; try (right; split; reflexivity).
  left. destruct (assign_mars_season_num x) as [label [Hin H]].
  now exists x, label.
Qed.

Lemma apply_cases (l : Series) :
  (Forall (fun c => is_number c = true) l
   /\ exists s, apply assign_mars_season l = Ok s)
  \/ (Exists (fun c => is_number c = false) l
      /\ apply assign_mars_season l = Raise (TypeError "'<=' not supported")).
Proof.
  unfold apply. induction l as [|c l IH]; simpl.
  - left. split; [constructor | now exists []].
  - destruct (assign_mars_season_cases c) as [[x [label [-> [_ E]]]]|[Hn E]];
      rewrite E; simpl.
    + destruct IH as [[Hall [s Hs]]|[Hex Hr]].
      * left. split; [now constructor|]. rewrite Hs. simpl. eauto.
      * right. split; [now apply Exists_cons_tl|]. now rewrite Hr.
    + right. split; [now apply Exists_cons_hd | reflexivity].
Qed.

Lemma apply_season_labels (l s : Series) :
  apply assign_mars_season l = Ok s ->
  Forall (fun c => is_number c = true) l
  /\ Forall (fun c => exists label, c = Str label /\ In label season_labels) s.
Proof.
  intros H. split.
  - destruct (apply_cases l) as [[Hall _]|[_ Hr]]; [assumption|].
    rewrite Hr in H. discriminate.
  - apply apply_labels in H.
    induction H as [|x y l s [label [Hl ->]] _ IH]; constructor; [|exact IH].
    exists label. split; [reflexivity|].
    destruct (assign_mars_season_cases x) as [[n [label' [_ [Hin E]]]]|[_ E]];
      rewrite E in Hl; [|discriminate].
    inversion Hl. now subst.
Qed.

(** The run of lines 18 to 28 once the header is known to carry the five
    required labels, the date and ls labels once each: only the classifier
    can still raise. *)
Lemma clean_eq df d l :
  select "terrestrial_date" (relabelled strip lower df) = [d] ->
  select "ls" (relabelled strip lower df) = [l] ->
  (forall name, In name required -> In name (columns (relabelled strip lower df))) ->
  clean strip lower datetime_of df
  = (s <- apply assign_mars_season
            (map (fun k => at_row k l)
               (filter (complete (setitem (relabelled strip lower df) "terrestrial_date"
                                    (to_datetime datetime_of d)) required)
                  (seq 0 (length (index df))))) ;;
     Ok (setitem (setitem (setitem
           (take (setitem (relabelled strip lower df) "terrestrial_date"
                    (to_datetime datetime_of d))
              (filter (complete (setitem (relabelled strip lower df) "terrestrial_date"
                                   (to_datetime datetime_of d)) required)
                 (seq 0 (length (index df)))))
           "season" s)
           "year" (dt_year (map (fun k => at_row k (to_datetime datetime_of d))
              (filter (complete (setitem (relabelled strip lower df) "terrestrial_date"
                                   (to_datetime datetime_of d)) required)
                 (seq 0 (length (index df)))))))
           "day" (dt_strftime (map (fun k => at_row k (to_datetime datetime_of d))
              (filter (complete (setitem (relabelled strip lower df) "terrestrial_date"
                                   (to_datetime datetime_of d)) required)
                 (seq 0 (length (index df)))))))).
Proof.
  clear parse_csv. intros Hd Hl Hreq. unfold clean. fold (relabelled strip lower df).
  set (p := relabelled strip lower df) in *.
  assert (getitem p "terrestrial_date" = Ok d) as Gd
    by (unfold getitem; now rewrite Hd).
  rewrite Gd. cbn [bind].
  set (dt := setitem p "terrestrial_date" (to_datetime datetime_of d)).
  assert (columns dt = columns p) as Hcols
    by (apply columns_setitem_has; now apply getitem_has_label in Gd).
  assert (select "terrestrial_date" dt = [to_datetime datetime_of d]) as Sd.
  { unfold dt. rewrite select_setitem_same by (now apply getitem_has_label in Gd).
    now rewrite Hd. }
  rewrite dropna_total by (now rewrite Hcols). cbn [bind].
  assert (index dt = index df) as Hidx
    by (unfold dt; now rewrite index_setitem).
  rewrite Hidx.
  set (keep := filter (complete dt required) (seq 0 (length (index df)))).
  assert (getitem (take dt keep) "ls" = Ok (map (fun k => at_row k l) keep)) as Gl.
  { unfold getitem. rewrite select_take. unfold dt.
    rewrite select_setitem_other by discriminate. now rewrite Hl. }
  rewrite Gl. cbn [bind].
  destruct (apply assign_mars_season (map (fun k => at_row k l) keep)) as [s|e];
    cbn [bind]; [|reflexivity].
  assert (getitem (take dt keep) "terrestrial_date"
          = Ok (map (fun k => at_row k (to_datetime datetime_of d)) keep)) as Gt
    by (unfold getitem; now rewrite select_take, Sd).
  rewrite getitem_setitem_other by discriminate.
  rewrite Gt. cbn [bind].
  rewrite !getitem_setitem_other by discriminate.
  rewrite Gt. reflexivity.
Qed.

(** X5. In a returned table the date column holds only parsed dates; a
    column labelled year holds the calendar year of the date of the same
    row, as a number; a column labelled day holds the date of the same row
    written in ten characters. *)
Theorem load_calendar_columns fs path out :
  snd (load_and_clean_data parse_csv strip lower datetime_of fs path) = Ok out ->
  exists d,
    getitem out "terrestrial_date" = Ok d
    /\ Forall is_time d
    /\ (forall y, In ("year", y) (data out) ->
          y = dt_year d
          /\ Forall (fun c => is_number c = true /\ isna c = false) y)
    /\ (forall s, In ("day", s) (data out) ->
          s = dt_strftime d
          /\ Forall (fun c => exists t, c = Str t /\ String.length t = 10) s).
Proof.
  intros H. apply load_ok in H. destruct H as [content [cols [_ [_ H]]]].
  apply clean_ok_explicit in H. destruct H as [d0 [l [s [Hd [_ [_ ->]]]]]].
  set (df := mkDataFrame (seq 0 (nrows cols)) cols) in *.
  set (dt := setitem (relabelled strip lower df) "terrestrial_date"
               (to_datetime datetime_of d0)) in *.
  set (keep := filter (complete dt required) (seq 0 (length (index df)))) in *.
  set (d := map (fun k => at_row k (to_datetime datetime_of d0)) keep).
  assert (has_label "terrestrial_date" (columns (relabelled strip lower df)) = true) as Hl.
  { apply has_label_In. unfold columns. apply in_map_iff.
    exists ("terrestrial_date", d0). split; [reflexivity|].
    apply select_In. rewrite Hd. now left. }
  assert (select "terrestrial_date" dt = [to_datetime datetime_of d0]) as Sd
    by (unfold dt; rewrite select_setitem_same by assumption; now rewrite Hd).
  assert (Forall is_time d) as Ht.
  { apply Forall_forall. intros c Hc. apply in_map_iff in Hc.
    destruct Hc as [k [<- Hk]]. apply filter_In in Hk.
    apply (kept_dates_are_times dt); [|tauto].
    apply select_In. rewrite Sd. now left. }
  exists d. split; [|split; [exact Ht|split]].
  - rewrite !getitem_setitem_other by discriminate.
    unfold getitem. now rewrite select_take, Sd.
  - intros y Hy. rewrite In_setitem_other in Hy by discriminate.
    apply In_setitem_same in Hy. subst y. split; [reflexivity|].
    unfold dt_year. apply Forall_map. eapply Forall_impl; [|exact Ht].
    intros c [t ->]. now split.
  - intros s' Hs. apply In_setitem_same in Hs. subst s'. split; [reflexivity|].
    unfold dt_strftime. apply Forall_map. eapply Forall_impl; [|exact Ht].
    intros c [t ->]. eexists. split; reflexivity.
Qed.

Lemma clean_season_entries df out :
  clean strip lower datetime_of df = Ok out ->
  exists l,
    getitem out "ls" = Ok l
    /\ Forall (fun c => is_number c = true) l
    /\ forall s, In ("season", s) (data out) ->
         Forall (fun c => exists label, c = Str label /\ In label season_labels) s.
Proof.
  clear parse_csv. intros H.
  apply clean_ok_explicit in H. destruct H as [d0 [l [s [_ [Hl [Hs ->]]]]]].
  apply apply_season_labels in Hs. destruct Hs as [Hnum Hlab].
  exists l. split; [|split; [exact Hnum|]].
  - rewrite !getitem_setitem_other by discriminate. exact Hl.
  - intros s' Hin. rewrite !In_setitem_other in Hin by discriminate.
    apply In_setitem_same in Hin. now subst s'.
Qed.

(** X6. In a returned table every entry of the ls column is a number and
    every entry of a column labelled season is one of the five labels. *)
Theorem load_season_entries_are_labels fs path out :
  snd (load_and_clean_data parse_csv strip lower datetime_of fs path) = Ok out ->
  exists l,
    getitem out "ls" = Ok l
    /\ Forall (fun c => is_number c = true) l
    /\ forall s, In ("season", s) (data out) ->
         Forall (fun c => exists label, c = Str label /\ In label season_labels) s.
Proof.
  intros H. apply load_ok in H. destruct H as [content [cols [_ [_ H]]]].
  now apply clean_season_entries in H.
Qed.

(** X7. With the five required labels in the header, the date and ls
    labels once each, the loader returns a table exactly when every row
    that survives the drop has a number for ls; otherwise what it raises is
    the [TypeError] of the classifier's first comparison. *)
Theorem load_raises_TypeError_on_text_ls fs path content cols d l :
  fs path = Some (File content) ->
  parse_csv content = Ok cols ->
  select "terrestrial_date"
    (relabelled strip lower (mkDataFrame (seq 0 (nrows cols)) cols)) = [d] ->
  select "ls" (relabelled strip lower (mkDataFrame (seq 0 (nrows cols)) cols)) = [l] ->
  (forall name, In name required ->
     In name (columns (relabelled strip lower (mkDataFrame (seq 0 (nrows cols)) cols)))) ->
  ((exists out, snd (load_and_clean_data parse_csv strip lower datetime_of fs path) = Ok out)
   <-> (forall k, k < nrows cols ->
          complete (setitem (relabelled strip lower (mkDataFrame (seq 0 (nrows cols)) cols))
                      "terrestrial_date" (to_datetime datetime_of d)) required k = true ->
          is_number (at_row k l) = true))
  /\ ((exists out, snd (load_and_clean_data parse_csv strip lower datetime_of fs path) = Ok out)
      \/ snd (load_and_clean_data parse_csv strip lower datetime_of fs path)
         = Raise (TypeError "'<=' not supported")).
Proof.
  intros Hfs Hp Hd Hl Hreq. rewrite (load_file _ _ _ _ _ _ _ _ Hfs Hp).
  rewrite (clean_eq _ _ _ Hd Hl Hreq). simpl index. rewrite length_seq.
  set (keep := filter _ (seq 0 (nrows cols))).
  destruct (apply_cases (map (fun k => at_row k l) keep)) as [[Hall [s Hs]]|[Hex Hr]].
  - rewrite Hs. cbn [bind]. split; [|left; eauto].
    split; [|eauto]. intros _ k Hk Hc.
    rewrite Forall_forall in Hall. apply Hall.
    apply (in_map (fun k => at_row k l)).
    apply filter_In. split; [apply in_seq; lia | exact Hc].
  - rewrite Hr. cbn [bind]. split; [|now right].
    split; [intros [out H]; discriminate|].
    intros Hall. exfalso. apply Exists_exists in Hex.
    destruct Hex as [c [Hc Hn]]. apply in_map_iff in Hc.
    destruct Hc as [k [<- Hk]]. apply filter_In in Hk. destruct Hk as [Hk Hc].
    apply in_seq in Hk. rewrite Hall in Hn; [discriminate | lia | exact Hc].
Qed.

(** X8. A source that has the header but no row is not an error: the
    loader returns a table with no row that still carries every source
    column and the derived ones. *)
Theorem load_header_only_source fs path content cols d l :
  fs path = Some (File content) ->
  parse_csv content = Ok cols ->
  nrows cols = 0 ->
  select "terrestrial_date"
    (relabelled strip lower (mkDataFrame (seq 0 (nrows cols)) cols)) = [d] ->
  select "ls" (relabelled strip lower (mkDataFrame (seq 0 (nrows cols)) cols)) = [l] ->
  (forall name, In name required ->
     In name (columns (relabelled strip lower (mkDataFrame (seq 0 (nrows cols)) cols)))) ->
  exists out,
    snd (load_and_clean_data parse_csv strip lower datetime_of fs path) = Ok out
    /\ index out = []
    /\ Forall (fun c => snd c = []) (data out)
    /\ incl (map (canonical strip lower) (map fst cols) ++ derived) (columns out).
Proof.
  intros Hfs Hp Hn Hd Hl Hreq. rewrite (load_file _ _ _ _ _ _ _ _ Hfs Hp).
  rewrite (clean_eq _ _ _ Hd Hl Hreq). simpl index. rewrite length_seq, Hn.
  cbn [seq filter map apply mapM bind].
  eexists. split; [reflexivity|]. split; [|split].
  - now rewrite !index_setitem.
  - assert (forall df n, Forall (fun c => snd c = []) (data df) ->
                         Forall (fun c : string * Series => snd c = [])
                           (data (setitem df n []))) as Hstep.
    { intros df n H. unfold setitem. destruct (has_label n (columns df)); simpl.
      - apply Forall_map. eapply Forall_impl; [|exact H].
        intros [m c] Hc. simpl in *. now destruct (String.eqb m n).
      - apply Forall_app. split; [assumption | now repeat constructor]. }
    apply (Hstep _ "day"), (Hstep _ "year"), (Hstep _ "season").
    unfold take. simpl. apply Forall_map, Forall_forall. now intros c _.
  - intros n Hin. apply in_app_iff in Hin. destruct Hin as [Hin|Hin].
    + do 3 apply columns_setitem_mono. rewrite columns_take.
      rewrite columns_setitem_has.
      * unfold relabelled. now rewrite prepared_columns.
      * apply has_label_In. apply Hreq. unfold required. simpl. tauto.
    + unfold derived in Hin. simpl in Hin.
      destruct Hin as [<-|[<-|[<-|[]]]].
      * do 2 apply columns_setitem_mono. apply has_label_In, has_label_setitem.
      * apply columns_setitem_mono. apply has_label_In, has_label_setitem.
      * apply has_label_In, has_label_setitem.
Qed.

End LoaderFacts.

(** * Further properties of the aggregating plots *)

Lemma HdRel_insert {A : Type} (le : A -> A -> bool) (y x : A) (l : list A) :
  HdRel (fun a b => le a b = true) y l -> le y x = true ->
  HdRel (fun a b => le a b = true) y (insert le x l).
Proof.
  intros Hl Hx. destruct l as [|z l]; simpl; [now constructor|].
  destruct (le x z); constructor; [assumption|].
  now inversion Hl.
Qed.

Lemma insert_sorted {A : Type} (le : A -> A -> bool) (x : A) (l : list A) :
  (forall y, In y l -> le x y = false -> le y x = true) ->
  Sorted (fun a b => le a b = true) l ->
  Sorted (fun a b => le a b = true) (insert le x l).
Proof.
  intros Htot Hs. induction l as [|y l IH]; simpl.
  - repeat constructor.
  - destruct (le x y) eqn:E.
    + constructor; [assumption | now constructor].
    + inversion Hs as [|? ? Hs' Hhd]. subst. constructor.
      * apply IH; [|assumption]. intros z Hz. apply Htot. now right.
      * apply HdRel_insert; [assumption|]. apply Htot; [now left | assumption].
Qed.

Lemma isort_sorted {A : Type} (le : A -> A -> bool) (l : list A) :
  (forall x y, In x l -> In y l -> le x y = false -> le y x = true) ->
  Sorted (fun a b => le a b = true) (isort le l).
Proof.
  induction l as [|x l IH]; intros Htot; simpl; [constructor|].
  apply insert_sorted.
  - intros y Hy. apply (Permutation_in _ (isort_perm le l)) in Hy.
    apply Htot; [now left | now right].
  - apply IH. intros a b Ha Hb. apply Htot; now right.
Qed.

Lemma Sorted_map {A B : Type} (f : A -> B) (R : B -> B -> Prop) (l : list A) :
  Sorted (fun a b => R (f a) (f b)) l -> Sorted R (map f l).
Proof.
  induction 1 as [|a l Hs IH Hhd]; simpl; constructor; [assumption|].
  destruct Hhd; simpl; now constructor.
Qed.

Lemma Sorted_impl {A : Type} (R R' : A -> A -> Prop) (l : list A) :
  (forall a b, R a b -> R' a b) -> Sorted R l -> Sorted R' l.
Proof.
  intros H. induction 1 as [|a l Hs IH Hhd]; constructor; [assumption|].
  destruct Hhd; constructor. now apply H.
Qed.

Lemma list_sum_perm (l l' : list nat) :
  Permutation l l' -> list_sum l = list_sum l'.
Proof. induction 1; simpl; lia. Qed.

Lemma num_eqb_sym x y : num_eqb x y = num_eqb y x.
Proof.
  destruct x, y; simpl; trivial.
  destruct (Qeq_bool q q0) eqn:E, (Qeq_bool q0 q) eqn:E'; trivial.
  - apply Qeq_bool_iff in E. symmetry in E. apply Qeq_bool_iff in E. congruence.
  - apply Qeq_bool_iff in E'. symmetry in E'. apply Qeq_bool_iff in E'. congruence.
Qed.

Lemma cell_eqb_sym a b : cell_eqb a b = cell_eqb b a.
Proof.
  destruct a, b; simpl; trivial.
  - apply num_eqb_sym.
  - apply String.eqb_sym.
  - destruct (ts_eqb t t0) eqn:E, (ts_eqb t0 t) eqn:E'; trivial.
    + apply ts_eqb_eq in E. subst. rewrite (proj2 (ts_eqb_eq t0 t0) eq_refl) in E'.
      discriminate.
    + apply ts_eqb_eq in E'. subst. rewrite (proj2 (ts_eqb_eq t t) eq_refl) in E.
      discriminate.
Qed.

Lemma count_filter_zero (a k : cell) (m : list cell) :
  cell_eqb a k = true ->
  count k (filter (fun y => negb (cell_eqb a y)) m) = 0.
Proof.
  intros Eak. unfold count. induction m as [|y m IHm]; simpl; [reflexivity|].
  destruct (cell_eqb a y) eqn:Eay; simpl; [exact IHm|].
  destruct (cell_eqb k y) eqn:Eky; simpl; [|exact IHm].
  rewrite (cell_eqb_trans a k y Eak Eky) in Eay. discriminate.
Qed.

Lemma count_filter_same (a k : cell) (m : list cell) :
  cell_eqb a k = false ->
  count k (filter (fun y => negb (cell_eqb a y)) m) = count k m.
Proof.
  intros Eak. unfold count. induction m as [|y m IHm]; simpl; [reflexivity|].
  destruct (cell_eqb k y) eqn:Eky; simpl.
  - assert (cell_eqb a y = false) as Eay.
    { destruct (cell_eqb a y) eqn:Eay; [|reflexivity].
      rewrite cell_eqb_sym in Eky.
      rewrite (cell_eqb_trans a y k Eay Eky) in Eak. discriminate. }
    rewrite Eay. simpl. rewrite Eky. simpl. now rewrite IHm.
  - destruct (cell_eqb a y); simpl; [exact IHm|]. rewrite Eky. exact IHm.
Qed.

Lemma count_filter_keys (a : cell) (ks m : list cell) :
  list_sum (map (fun k => count k m) (filter (fun y => negb (cell_eqb a y)) ks))
  = list_sum (map (fun k => count k (filter (fun y => negb (cell_eqb a y)) m)) ks).
Proof.
  induction ks as [|k ks IHk]; simpl; [reflexivity|].
  destruct (cell_eqb a k) eqn:Eak; simpl; rewrite IHk.
  - now rewrite count_filter_zero.
  - now rewrite count_filter_same.
Qed.

(** Counting over the distinct entries of [l] counts each entry of [m]
    that occurs in [l] once. *)
Lemma count_unique (l m : list cell) :
  list_sum (map (fun k => count k m) (unique l))
  = length (filter (fun y => existsb (fun x => cell_eqb x y) l) m).
Proof.
  revert m. induction l as [|a l IH]; intros m; simpl.
  - induction m; simpl; trivial.
  - rewrite count_filter_keys, IH. unfold count. clear.
    induction m as [|y m IHm]; simpl; [reflexivity|].
    destruct (cell_eqb a y); simpl.
    + now rewrite <- IHm.
    + destruct (existsb (fun x => cell_eqb x y) l); simpl; now rewrite <- IHm.
Qed.

Lemma count_unique_all (l : list cell) :
  list_sum (map (fun k => count k l) (unique l)) = length l.
Proof.
  rewrite count_unique. f_equal.
  assert (forall m, incl m l ->
            filter (fun y => existsb (fun x => cell_eqb x y) l) m = m) as H.
  { induction m as [|y m IHm]; intros Hi; simpl; [reflexivity|].
    assert (existsb (fun x => cell_eqb x y) l = true) as ->.
    { apply existsb_exists. exists y. split; [apply Hi; now left|].
      apply cell_eqb_refl. }
    f_equal. apply IHm. intros z Hz. apply Hi. now right. }
  apply H, incl_refl.
Qed.

Lemma count_positive (k : cell) (l : list cell) : In k l -> 1 <= count k l.
Proof.
  unfold count. induction l as [|a l IH]; simpl; [intros []|].
  intros [->|H].
  - rewrite cell_eqb_refl. simpl. lia.
  - destruct (cell_eqb k a); simpl; [lia | now apply IH].
Qed.

(** X9. When the opacity column is there, the counts of the chart are
    positive, come in non-increasing order, and add up to the number of
    entries of the column that are not missing. *)
Theorem opacity_counts_are_ordered_and_add_up (df : DataFrame) (s : Series) :
  select "atmospheric_opacity" df = [s] ->
  exists keys ns,
    plot_opacity df
    = Ok (Plot "opacity_plot.html"
            (PxBar (mkDataFrame (seq 0 (length keys))
                      [("Opacity Type", keys); ("Count", map num_of_nat ns)])
               "Opacity Type" "Count"))
    /\ length ns = length keys
    /\ Sorted ge ns
    /\ Forall (fun n => 1 <= n) ns
    /\ list_sum ns = length (filter notna s).
Proof.
  intros Hs.
  assert (has_label "atmospheric_opacity" (columns df) = true) as Hl.
  { apply has_label_In. unfold columns. apply in_map_iff.
    exists ("atmospheric_opacity", s). split; [reflexivity|].
    apply select_In. rewrite Hs. now left. }
  exists (map fst (value_counts s)), (map snd (value_counts s)).
  assert (Permutation (value_counts s)
            (map (fun v => (v, count v (filter notna s))) (unique (filter notna s))))
    as Hperm by apply isort_perm.
  split; [|split; [|split; [|split]]].
  - unfold plot_opacity, getitem. rewrite Hl, Hs. cbn [bind].
    now rewrite length_map, map_map.
  - now rewrite !length_map.
  - apply Sorted_map. unfold value_counts.
    apply (Sorted_impl (fun a b : cell * nat => (snd b <=? snd a) = true)).
    + intros a b H. apply Nat.leb_le in H. exact H.
    + apply (isort_sorted (fun a b : cell * nat => snd b <=? snd a)).
      intros x y _ _ H. apply Nat.leb_gt in H. apply Nat.leb_le. lia.
  - apply Forall_forall. intros n Hn. apply in_map_iff in Hn.
    destruct Hn as [[k m] [<- Hin]]. simpl.
    apply (Permutation_in _ Hperm) in Hin. apply in_map_iff in Hin.
    destruct Hin as [v [Heq Hv]]. inversion Heq. subst.
    apply count_positive. now apply unique_In.
  - rewrite (list_sum_perm _ _ (Permutation_map snd Hperm)), map_map. simpl.
    apply count_unique_all.
Qed.

Lemma select_filter df name c :
  select name df = [c] ->
  filter (fun col => String.eqb (fst col) name) (data df) = [(name, c)].
Proof.
  unfold select. intros H.
  destruct (filter (fun col => String.eqb (fst col) name) (data df))
    as [|[n c0] [|x r]] eqn:E; simpl in H; try discriminate.
  inversion H. subst c0.
  assert (In (n, c) (filter (fun col => String.eqb (fst col) name) (data df)))
    as Hin by (rewrite E; now left).
  apply filter_In in Hin. destruct Hin as [_ Hn]. simpl in Hn.
  apply String.eqb_eq in Hn. now subst.
Qed.

Lemma select_has_label df name c :
  select name df = [c] -> has_label name (columns df) = true.
Proof.
  intros H. apply has_label_In. unfold columns. apply in_map_iff.
  exists (name, c). split; [reflexivity|]. apply select_In. rewrite H. now left.
Qed.

Lemma getitem_select df name c : select name df = [c] -> getitem df name = Ok c.
Proof. intros H. unfold getitem. now rewrite H. Qed.

Lemma mapM_as_number_numbers (c : Series) :
  Forall (fun v => is_number v = true) c -> mapM as_number c = Ok (numbers_of c).
Proof.
  induction 1 as [|v c Hv _ IH]; simpl; [reflexivity|].
  destruct v; try discriminate. simpl. now rewrite IH.
Qed.

Section SeasonChart.

Variable float64_mean : list number -> number.

Lemma group_means_bars (k : Series) (groups : list cell) (c : Series) :
  Forall (fun v => is_number v = true) c ->
  group_means float64_mean k groups c = Ok (bars float64_mean k groups c).
Proof.
  intros H. unfold group_means. now rewrite mapM_as_number_numbers.
Qed.

Lemma mean_is_number (xs : list number) : is_number (mean float64_mean xs) = true.
Proof.
  unfold mean. now destruct (filter (fun x => negb (is_nan x)) xs).
Qed.

(** The season chart on a frame whose season and measure labels each
    name one column, the measures numeric. *)
Lemma plot_season_comparison_eq df k c1 c2 c3 :
  select "season" df = [k] ->
  select "min_temp" df = [c1] ->
  select "max_temp" df = [c2] ->
  select "pressure" df = [c3] ->
  Forall (fun v => is_number v = true) c1 ->
  Forall (fun v => is_number v = true) c2 ->
  Forall (fun v => is_number v = true) c3 ->
  plot_season_comparison float64_mean df
  = Ok (Plot "season_comparison.html"
          (GoBars
             [("Min Temp", isort cell_leb (unique (filter notna k)),
               bars float64_mean k (isort cell_leb (unique (filter notna k))) c1);
              ("Max Temp", isort cell_leb (unique (filter notna k)),
               bars float64_mean k (isort cell_leb (unique (filter notna k))) c2);
              ("Pressure", isort cell_leb (unique (filter notna k)),
               bars float64_mean k (isort cell_leb (unique (filter notna k))) c3)])).
Proof.
  intros Hk H1 H2 H3 N1 N2 N3.
  unfold plot_season_comparison, groupby_mean.
  rewrite (getitem_select _ _ _ Hk). cbn [bind].
  cbn [filter]. rewrite (select_has_label _ _ _ H1), (select_has_label _ _ _ H2),
    (select_has_label _ _ _ H3). cbn [negb flat_map].
  rewrite (select_filter _ _ _ H1), (select_filter _ _ _ H2),
    (select_filter _ _ _ H3).
  cbn [app mapM fst snd].
  rewrite (group_means_bars _ _ _ N1), (group_means_bars _ _ _ N2),
    (group_means_bars _ _ _ N3).
  reflexivity.
Qed.

Lemma cell_leb_total_Str (a b : cell) :
  (exists s, a = Str s) -> (exists t, b = Str t) ->
  cell_leb a b = false -> cell_leb b a = true.
Proof.
  intros [s ->] [t ->]. simpl. intros H.
  destruct (String.leb_total s t) as [E|E]; congruence.
Qed.

(** X10. On a frame whose season and measure labels each name one
    column, with numeric measures and season labels as the loader writes
    them, the season chart has the same keys under its three bar groups:
    pairwise distinct, in alphabetical order, at most five, and one
    numeric bar per key in each group. *)
Theorem season_chart_has_at_most_five_sorted_keys df k c1 c2 c3 :
  select "season" df = [k] ->
  select "min_temp" df = [c1] ->
  select "max_temp" df = [c2] ->
  select "pressure" df = [c3] ->
  Forall (fun v => is_number v = true) (c1 ++ c2 ++ c3) ->
  Forall (fun c => exists label, c = Str label /\ In label season_labels) k ->
  exists x y1 y2 y3,
    plot_season_comparison float64_mean df
    = Ok (Plot "season_comparison.html"
            (GoBars [("Min Temp", x, y1); ("Max Temp", x, y2); ("Pressure", x, y3)]))
    /\ NoDup x
    /\ Sorted (fun a b => cell_leb a b = true) x
    /\ length x <= 5
    /\ (forall g, In g x <-> In g k)
    /\ length y1 = length x /\ length y2 = length x /\ length y3 = length x
    /\ Forall (fun v => is_number v = true) (y1 ++ y2 ++ y3).
Proof.
  intros Hk H1 H2 H3 Hnum Hlab.
  apply Forall_app in Hnum. destruct Hnum as [N1 Hnum].
  apply Forall_app in Hnum. destruct Hnum as [N2 N3].
  set (x := isort cell_leb (unique (filter notna k))).
  assert (Permutation x (unique (filter notna k))) as Hperm by apply isort_perm.
  assert (forall g, In g k -> exists label, g = Str label /\ In label season_labels)
    as Hstr by (now apply Forall_forall).
  assert (forall g, In g x <-> In g k) as Hiff.
  { intros g. split.
    - intros Hg. apply (Permutation_in _ Hperm) in Hg.
      apply unique_In, filter_In in Hg. tauto.
    - intros Hg. destruct (Hstr g Hg) as [label [-> _]].
      apply (Permutation_in _ (Permutation_sym Hperm)), unique_Str, filter_In.
      now split. }
  exists x, (bars float64_mean k x c1), (bars float64_mean k x c2), (bars float64_mean k x c3).
  split; [now apply plot_season_comparison_eq|].
  split; [apply (Permutation_NoDup (Permutation_sym Hperm)), unique_NoDup|].
  split.
  { apply isort_sorted. intros a b Ha Hb.
    apply unique_In, filter_In in Ha. apply unique_In, filter_In in Hb.
    destruct (Hstr a (proj1 Ha)) as [s [-> _]].
    destruct (Hstr b (proj1 Hb)) as [t [-> _]].
    apply cell_leb_total_Str; eauto. }
  split.
  { change 5 with (length (map Str season_labels)).
    apply NoDup_incl_length.
    - apply (Permutation_NoDup (Permutation_sym Hperm)), unique_NoDup.
    - intros g Hg. apply Hiff in Hg. destruct (Hstr g Hg) as [label [-> Hin]].
      now apply in_map. }
  split; [exact Hiff|].
  unfold bars. rewrite !length_map. repeat split.
  rewrite !Forall_app. repeat split; apply Forall_map, Forall_forall;
    intros g _; apply mean_is_number.
Qed.

End SeasonChart.

(** * Properties of the polar plot *)

Lemma filter_true {A : Type} (f : A -> bool) (l : list A) :
  (forall x, In x l -> f x = true) -> filter f l = l.
Proof.
  induction l as [|a l IH]; intros H; simpl; [reflexivity|].
  rewrite (H a (or_introl eq_refl)). f_equal. apply IH.
  intros x Hx. apply H. now right.
Qed.

Lemma filter_false {A : Type} (f : A -> bool) (l : list A) :
  (forall x, In x l -> f x = false) -> filter f l = [].
Proof.
  induction l as [|a l IH]; intros H; simpl; [reflexivity|].
  rewrite (H a (or_introl eq_refl)). apply IH.
  intros x Hx. apply H. now right.
Qed.

Lemma num_le_total (x y : number) :
  is_nan x = false -> is_nan y = false ->
  num_le x y = false -> num_le y x = true.
Proof.
  destruct x as [p| | |], y as [q| | |]; simpl; try discriminate; trivial.
  intros _ _ H. apply Qle_bool_iff.
  destruct (Qlt_le_dec q p) as [Hlt|Hle].
  - now apply Qlt_le_weak.
  - apply Qle_bool_iff in Hle. congruence.
Qed.

Lemma cell_leb_total_numbers (a b : cell) :
  is_number a = true -> isna a = false ->
  is_number b = true -> isna b = false ->
  cell_leb a b = false -> cell_leb b a = true.
Proof.
  destruct a as [x| | |], b as [y| | |]; simpl; try discriminate.
  intros _ Hx _ Hy. apply num_le_total.
  - now destruct x.
  - now destruct y.
Qed.

Lemma comparable_numbers (s : Series) :
  Forall (fun c => is_number c = true) s -> comparable s = true.
Proof.
  destruct 1 as [|c s Hc Hs]; simpl; [reflexivity|].
  apply forallb_forall. intros c' Hc'. rewrite Forall_forall in Hs.
  specialize (Hs _ Hc'). destruct c, c'; try discriminate. reflexivity.
Qed.

Lemma at_row_In (s : Series) (i : nat) : i < length s -> In (at_row i s) s.
Proof. intros H. unfold at_row. now apply nth_In. Qed.

(** Sorting by a key column that is complete and numeric. *)
Lemma sort_values_eq df key k :
  select key df = [k] ->
  length k = length (index df) ->
  Forall (fun c => is_number c = true /\ isna c = false) k ->
  sort_values df key
  = Ok (take df (isort (fun i j => cell_leb (at_row i k) (at_row j k))
                   (seq 0 (length (index df))))).
Proof.
  intros Hk Hlen Hall. unfold sort_values.
  rewrite (getitem_select _ _ _ Hk). cbn [bind].
  rewrite Forall_forall in Hall.
  assert (forall i, In i (seq 0 (length (index df))) ->
                    is_number (at_row i k) = true /\ isna (at_row i k) = false)
    as Hrow.
  { intros i Hi. apply in_seq in Hi. apply Hall, at_row_In. lia. }
  rewrite (filter_true (fun i => notna (at_row i k))).
  2:{ intros i Hi. unfold notna. now rewrite (proj2 (Hrow i Hi)). }
  rewrite (filter_false (fun i => isna (at_row i k)))
    by (intros i Hi; apply (Hrow i Hi)).
  rewrite comparable_numbers, app_nil_r; [reflexivity|].
  apply Forall_map, Forall_forall. intros i Hi. apply (Hrow i Hi).
Qed.

Lemma getitem_take df rows name c :
  select name df = [c] ->
  getitem (take df rows) name = Ok (map (fun i => at_row i c) rows).
Proof. intros H. unfold getitem. now rewrite select_take, H. Qed.

Lemma plot_polar_climate_eq df ls c1 c2 c3 :
  select "ls" df = [ls] ->
  select "min_temp" df = [c1] ->
  select "max_temp" df = [c2] ->
  select "pressure" df = [c3] ->
  length ls = length (index df) ->
  Forall (fun c => is_number c = true /\ isna c = false) ls ->
  plot_polar_climate df
  = ([Wrote "polar_temperature.html"
        (GoScatterpolar
           [mkTrace "Min Temp (°C)"
              (map (fun i => at_row i ls)
                 (isort (fun i j => cell_leb (at_row i ls) (at_row j ls))
                    (seq 0 (length (index df)))))
              (map (fun i => at_row i c1)
                 (isort (fun i j => cell_leb (at_row i ls) (at_row j ls))
                    (seq 0 (length (index df)))))
              "skyblue";
            mkTrace "Max Temp (°C)"
              (map (fun i => at_row i ls)
                 (isort (fun i j => cell_leb (at_row i ls) (at_row j ls))
                    (seq 0 (length (index df)))))
              (map (fun i => at_row i c2)
                 (isort (fun i j => cell_leb (at_row i ls) (at_row j ls))
                    (seq 0 (length (index df)))))
              "orangered"]
           (polar_layout "Martian Temperature vs Solar Longitude (Ls)"
              "Temperature (°C)"));
      Wrote "polar_pressure.html"
        (GoScatterpolar
           [mkTrace "Pressure"
              (map (fun i => at_row i ls)
                 (isort (fun i j => cell_leb (at_row i ls) (at_row j ls))
                    (seq 0 (length (index df)))))
              (map (fun i => at_row i c3)
                 (isort (fun i j => cell_leb (at_row i ls) (at_row j ls))
                    (seq 0 (length (index df)))))
              "limegreen"]
           (polar_layout "Martian Pressure vs Solar Longitude (Ls)"
              "Pressure (Pa)"))],
     Ok tt).
Proof.
  intros Hl H1 H2 H3 Hlen Hall. unfold plot_polar_climate.
  rewrite (sort_values_eq _ _ _ Hl Hlen Hall).
  cbn [pbind lift emit fst snd app].
  rewrite (getitem_take _ _ _ _ H1). cbn [pbind lift emit fst snd app].
  rewrite (getitem_take _ _ _ _ Hl). cbn [pbind lift emit fst snd app].
  rewrite (getitem_take _ _ _ _ H2). cbn [pbind lift emit fst snd app].
  rewrite (getitem_take _ _ _ _ H3). cbn [pbind lift emit fst snd app].
  reflexivity.
Qed.

(** X11. On a frame whose ls column is complete and numeric, both polar
    charts are written; their angles are the ls entries in non-decreasing
    order, and the radii of every trace are the entries of its column taken
    in the same order of rows, so each point keeps the values of one row. *)
Theorem polar_traces_are_sorted_and_aligned df ls c1 c2 c3 :
  select "ls" df = [ls] ->
  select "min_temp" df = [c1] ->
  select "max_temp" df = [c2] ->
  select "pressure" df = [c3] ->
  length ls = length (index df) ->
  Forall (fun c => is_number c = true /\ isna c = false) ls ->
  exists rows,
    Permutation rows (seq 0 (length (index df)))
    /\ Sorted (fun a b => cell_leb a b = true) (map (fun i => at_row i ls) rows)
    /\ plot_polar_climate df
       = ([Wrote "polar_temperature.html"
             (GoScatterpolar
                [mkTrace "Min Temp (°C)" (map (fun i => at_row i ls) rows)
                   (map (fun i => at_row i c1) rows) "skyblue";
                 mkTrace "Max Temp (°C)" (map (fun i => at_row i ls) rows)
                   (map (fun i => at_row i c2) rows) "orangered"]
                (polar_layout "Martian Temperature vs Solar Longitude (Ls)"
                   "Temperature (°C)"));
           Wrote "polar_pressure.html"
             (GoScatterpolar
                [mkTrace "Pressure" (map (fun i => at_row i ls) rows)
                   (map (fun i => at_row i c3) rows) "limegreen"]
                (polar_layout "Martian Pressure vs Solar Longitude (Ls)"
                   "Pressure (Pa)"))],
          Ok tt).
Proof.
  intros Hl H1 H2 H3 Hlen Hall.
  exists (isort (fun i j => cell_leb (at_row i ls) (at_row j ls))
            (seq 0 (length (index df)))).
  split; [apply isort_perm|]. split; [|now apply plot_polar_climate_eq].
  apply Sorted_map.
  apply (isort_sorted (fun i j => cell_leb (at_row i ls) (at_row j ls))).
  intros i j Hi Hj. apply in_seq in Hi. apply in_seq in Hj.
  rewrite Forall_forall in Hall.
  destruct (Hall (at_row i ls)) as [Ni Mi]; [apply at_row_In; lia|].
  destruct (Hall (at_row j ls)) as [Nj Mj]; [apply at_row_In; lia|].
  now apply cell_leb_total_numbers.
Qed.

(** X12. The two polar charts are not written together: when the frame
    has no pressure column, the temperature chart is written first and only
    then does the lookup of pressure raise its [KeyError]. *)
Theorem polar_temperature_is_written_before_pressure_fails df ls c1 c2 :
  select "ls" df = [ls] ->
  select "min_temp" df = [c1] ->
  select "max_temp" df = [c2] ->
  select "pressure" df = [] ->
  length ls = length (index df) ->
  Forall (fun c => is_number c = true /\ isna c = false) ls ->
  exists chart,
    plot_polar_climate df
    = ([Wrote "polar_temperature.html" chart], Raise (KeyError ["pressure"])).
Proof.
  intros Hl H1 H2 H3 Hlen Hall. unfold plot_polar_climate.
  rewrite (sort_values_eq _ _ _ Hl Hlen Hall).
  cbn [pbind lift emit fst snd app].
  rewrite (getitem_take _ _ _ _ H1). cbn [pbind lift emit fst snd app].
  rewrite (getitem_take _ _ _ _ Hl). cbn [pbind lift emit fst snd app].
  rewrite (getitem_take _ _ _ _ H2). cbn [pbind lift emit fst snd app].
  assert (getitem (take df (isort (fun i j => cell_leb (at_row i ls) (at_row j ls))
                              (seq 0 (length (index df))))) "pressure"
          = Raise (KeyError ["pressure"])) as ->.
  { unfold getitem. now rewrite select_take, H3. }
  cbn [pbind lift emit fst snd app]. eexists. reflexivity.
Qed.

(** * Properties of the entry point *)

Lemma filter_label_absent (l : list (string * Series)) (name : string) :
  ~ In name (map fst l) ->
  filter (fun c => String.eqb (fst c) name) l = [].
Proof.
  intros H. apply filter_false. intros [n c] Hin. simpl.
  apply String.eqb_neq. intros ->. apply H. apply in_map_iff. now exists (name, c).
Qed.

Lemma NoDup_select df name :
  NoDup (columns df) -> In name (columns df) -> exists c, select name df = [c].
Proof.
  unfold columns, select. induction (data df) as [|[n c] l IH]; simpl.
  - intros _ [].
  - intros Hnd Hin. inversion Hnd as [|? ? Hn Hnd']. subst.
    destruct (String.eqb n name) eqn:E.
    + apply String.eqb_eq in E. subst n. exists c. simpl.
      now rewrite filter_label_absent.
    + destruct Hin as [->|Hin]; [rewrite String.eqb_refl in E; discriminate|].
      now apply IH.
Qed.

Lemma select_absent df name : ~ In name (columns df) -> select name df = [].
Proof. intros H. now apply select_nil. Qed.

Lemma plot_temperature_eq df d c1 c2 :
  select "terrestrial_date" df = [d] ->
  select "min_temp" df = [c1] ->
  select "max_temp" df = [c2] ->
  exists chart,
    plot_temperature df = ([Wrote "temperature_plot.html" chart], Ok tt).
Proof.
  intros Hd H1 H2. unfold plot_temperature.
  rewrite (getitem_select _ _ _ Hd), (getitem_select _ _ _ H1),
    (getitem_select _ _ _ H2).
  cbn [pbind lift emit fst snd app]. eexists. reflexivity.
Qed.

Lemma px_column_select df name c : select name df = [c] -> px_column df name = Ok c.
Proof. intros H. unfold px_column. now rewrite H. Qed.

Lemma plot_pressure_eq df d c :
  select "terrestrial_date" df = [d] ->
  select "pressure" df = [c] ->
  exists chart, plot_pressure df = ([Wrote "pressure_plot.html" chart], Ok tt).
Proof.
  intros Hd Hc. unfold plot_pressure.
  rewrite (px_column_select _ _ _ Hd), (px_column_select _ _ _ Hc).
  cbn [pbind lift emit fst snd app]. eexists. reflexivity.
Qed.

Lemma plot_animated_temperature_eq df d c y :
  select "day" df = [d] ->
  select "max_temp" df = [c] ->
  select "year" df = [y] ->
  exists chart,
    plot_animated_temperature df
    = ([Wrote "animated_temperature.html" chart], Ok tt).
Proof.
  intros Hd Hc Hy. unfold plot_animated_temperature.
  rewrite (px_column_select _ _ _ Hd), (px_column_select _ _ _ Hc),
    (px_column_select _ _ _ Hy).
  cbn [pbind lift emit fst snd app]. eexists. reflexivity.
Qed.

Lemma plot_opacity_unique df :
  NoDup (columns df) ->
  exists o,
    plot_opacity df = Ok o
    /\ (In "atmospheric_opacity" (columns df) ->
        exists f, o = Plot "opacity_plot.html" f)
    /\ (~ In "atmospheric_opacity" (columns df) ->
        o = Print "⚠️ No atmospheric_opacity column found.").
Proof.
  intros Hnd. unfold plot_opacity.
  destruct (has_label "atmospheric_opacity" (columns df)) eqn:E.
  - apply has_label_In in E. destruct (NoDup_select _ _ Hnd E) as [s Hs].
    rewrite (getitem_select _ _ _ Hs). cbn [bind]. eexists.
    split; [reflexivity|]. split; [eauto | contradiction].
  - apply has_label_false in E. eexists. split; [reflexivity|].
    split; [contradiction | reflexivity].
Qed.

Section EntryPointFacts.

Variable parse_csv : string -> result (list (string * Series)).
Variable strip lower : string -> string.
Variable datetime_of : Series -> cell -> option Timestamp.
Variable float64_mean : list number -> number.

Lemma load_pair fs path content cols :
  fs path = Some (File content) -> parse_csv content = Ok cols ->
  load_and_clean_data parse_csv strip lower datetime_of fs path
  = ([OsPathExists path; ReadCsv path],
     clean strip lower datetime_of (mkDataFrame (seq 0 (nrows cols)) cols)).
Proof.
  intros Hfs Hp. unfold load_and_clean_data, read_csv. rewrite Hfs.
  cbn [bind]. now rewrite Hp.
Qed.

(** X13. When the loader raises, for a missing file or any other reason,
    [main] draws nothing: after the loader's own file accesses its only
    step is to print that exception. *)
Theorem main_prints_the_loader_error_and_draws_nothing file fs e :
  snd (load_and_clean_data parse_csv strip lower datetime_of fs
         (join (dirname file) "../data/mars-weather.csv")) = Raise e ->
  main parse_csv strip lower datetime_of float64_mean file fs
  = map Io (fst (load_and_clean_data parse_csv strip lower datetime_of fs
                   (join (dirname file) "../data/mars-weather.csv")))
    ++ [PrintedError e].
Proof.
  intros H. unfold main, loaded. cbn [pbind fst snd]. now rewrite H.
Qed.

Lemma clean_columns_incl df out :
  clean strip lower datetime_of df = Ok out ->
  incl (map (canonical strip lower) (columns df) ++ derived) (columns out).
Proof.
  clear parse_csv. intros H.
  apply clean_ok in H. destruct H as [dt [l [s [y [d [Hd [_ [_ [_ ->]]]]]]]]].
  intros n Hin. apply in_app_iff in Hin. destruct Hin as [Hin|Hin].
  - do 3 apply columns_setitem_mono. rewrite columns_take.
    now rewrite (columns_dated _ _ _ _ _ Hd).
  - unfold derived in Hin. simpl in Hin. destruct Hin as [<-|[<-|[<-|[]]]].
    + do 2 apply columns_setitem_mono. apply has_label_In, has_label_setitem.
    + apply columns_setitem_mono. apply has_label_In, has_label_setitem.
    + apply has_label_In, has_label_setitem.
Qed.

Lemma header_columns_of_clean df out :
  clean strip lower datetime_of df = Ok out ->
  exists extra, columns out = map (canonical strip lower) (columns df) ++ extra
                /\ incl extra derived.
Proof.
  clear parse_csv. intros H.
  apply clean_ok in H. destruct H as [dt [l [s [y [d [Hd [_ [_ [_ ->]]]]]]]]].
  destruct (columns_setitem (setitem (setitem
              (take dt (filter (complete dt required) (seq 0 (length (index df)))))
              "season" s) "year" y) "day" d) as [e3 [-> H3]].
  destruct (columns_setitem (setitem
              (take dt (filter (complete dt required) (seq 0 (length (index df)))))
              "season" s) "year" y) as [e2 [-> H2]].
  destruct (columns_setitem
              (take dt (filter (complete dt required) (seq 0 (length (index df)))))
              "season" s) as [e1 [-> H1]].
  rewrite columns_take, (columns_dated _ _ _ _ _ Hd).
  exists (e1 ++ e2 ++ e3). split; [now rewrite <- !app_assoc|].
  unfold derived. intros x Hx. rewrite !in_app_iff in Hx. simpl.
  destruct Hx as [Hx|[Hx|Hx]];
    [apply H1 in Hx | apply H2 in Hx | apply H3 in Hx];
    simpl in Hx; tauto.
Qed.

Lemma clean_required_present df out name c :
  clean strip lower datetime_of df = Ok out ->
  In name required -> In (name, c) (data out) ->
  Forall (fun v => isna v = false) c.
Proof.
  clear parse_csv. intros H Hreq Hin.
  destruct (clean_rows _ _ _ _ _ H) as [dt [_ [_ Hc]]].
  apply Hc in Hin; [|now apply not_derived_required].
  destruct Hin as [c0 [Hin0 ->]].
  apply Forall_forall. intros v Hv. apply in_map_iff in Hv.
  destruct Hv as [k [<- Hk]]. apply filter_In in Hk. destruct Hk as [_ Hk].
  rewrite complete_spec in Hk. now apply (Hk name c0).
Qed.

Lemma clean_numeric_columns df out name c :
  (forall n c0, In (n, c0) (data df) -> canonical strip lower n = name ->
                Forall (fun v => is_number v = true) c0) ->
  name <> "terrestrial_date" -> ~ In name derived ->
  clean strip lower datetime_of df = Ok out ->
  In (name, c) (data out) ->
  Forall (fun v => is_number v = true) c.
Proof.
  clear parse_csv. intros Hsrc Hnd Hnder H Hin.
  destruct (clean_rows _ _ _ _ _ H) as [dt [Hd [_ Hc]]].
  apply Hc in Hin; [|assumption]. destruct Hin as [c0 [Hin0 ->]].
  apply dated_ok in Hd. destruct Hd as [d [_ ->]].
  apply In_setitem_other in Hin0; [|assumption].
  rewrite prepared_data in Hin0. apply in_map_iff in Hin0.
  destruct Hin0 as [[n c1] [Heq Hin1]]. simpl in Heq. inversion Heq. subst.
  specialize (Hsrc _ _ Hin1 eq_refl). rewrite Forall_forall in Hsrc.
  apply Forall_map, Forall_forall. intros k _. unfold at_row.
  destruct (nth_in_or_default k c0 (Num NaN)) as [Hn| ->]; [|reflexivity].
  now apply Hsrc.
Qed.

Lemma clean_succeeds df :
  NoDup (map (canonical strip lower) (columns df)) ->
  incl required (map (canonical strip lower) (columns df)) ->
  (forall n c, In (n, c) (data df) -> canonical strip lower n = "ls" ->
               Forall (fun v => is_number v = true) c) ->
  exists out, clean strip lower datetime_of df = Ok out.
Proof.
  clear parse_csv. intros Hnd Hreq Hls.
  assert (columns (relabelled strip lower df) = map (canonical strip lower) (columns df)) as Hcols
    by apply prepared_columns.
  destruct (NoDup_select (relabelled strip lower df) "terrestrial_date") as [d Hd];
    [now rewrite Hcols | rewrite Hcols; apply Hreq; unfold required; simpl; tauto|].
  destruct (NoDup_select (relabelled strip lower df) "ls") as [l Hl];
    [now rewrite Hcols | rewrite Hcols; apply Hreq; unfold required; simpl; tauto|].
  rewrite (clean_eq _ _ _ _ _ _ Hd Hl) by (intros n Hn; rewrite Hcols; now apply Hreq).
  assert (Forall (fun v => is_number v = true) l) as Hnum.
  { assert (In ("ls", l) (data (relabelled strip lower df))) as Hin
      by (apply select_In; rewrite Hl; now left).
    unfold relabelled in Hin. rewrite prepared_data in Hin.
    apply in_map_iff in Hin. destruct Hin as [[n c] [Heq Hin]].
    simpl in Heq. inversion Heq. subst. now apply (Hls n). }
  destruct (apply_cases (map (fun k => at_row k l)
              (filter (complete (setitem (relabelled strip lower df) "terrestrial_date"
                                   (to_datetime datetime_of d)) required)
                 (seq 0 (length (index df))))))
    as [[_ [s Hs]]|[Hex _]].
  - rewrite Hs. cbn [bind]. eauto.
  - exfalso. apply Exists_exists in Hex. destruct Hex as [c [Hc Hn]].
    apply in_map_iff in Hc. destruct Hc as [k [<- _]]. unfold at_row in Hn.
    rewrite Forall_forall in Hnum.
    destruct (nth_in_or_default k l (Num NaN)) as [Hin|E].
    + rewrite (Hnum _ Hin) in Hn. discriminate.
    + rewrite E in Hn. discriminate.
Qed.

(** X14. On a source whose canonical labels are pairwise distinct and
    include the five required ones, with numbers in the ls and the three
    measure columns, [main] raises nowhere: after reading the file it writes
    the temperature and pressure charts, charts the opacity tally or prints
    the notice, then the season chart, the animated chart and the two polar
    charts, and ends on the success message.  The tally is charted whenever
    a source label is canonically atmospheric_opacity, the alias included. *)
Theorem main_completes_on_a_well_formed_source file fs content cols :
  fs (join (dirname file) "../data/mars-weather.csv") = Some (File content) ->
  parse_csv content = Ok cols ->
  NoDup (map (canonical strip lower) (map fst cols)) ->
  incl required (map (canonical strip lower) (map fst cols)) ->
  (forall n c, In (n, c) cols -> In (canonical strip lower n) ("ls" :: measures) ->
               Forall (fun v => is_number v = true) c) ->
  exists c1 c2 o3 f4 c5 c6 c7,
    main parse_csv strip lower datetime_of float64_mean file fs
    = [Io (OsPathExists (join (dirname file) "../data/mars-weather.csv"));
       Io (ReadCsv (join (dirname file) "../data/mars-weather.csv"));
       Wrote "temperature_plot.html" c1;
       Wrote "pressure_plot.html" c2;
       Did o3;
       Did (Plot "season_comparison.html" f4);
       Wrote "animated_temperature.html" c5;
       Wrote "polar_temperature.html" c6;
       Wrote "polar_pressure.html" c7;
       Did (Print "✅ All plots generated including polar plots. Check your HTML files.")]
    /\ (In "atmospheric_opacity" (map (canonical strip lower) (map fst cols)) ->
        exists f, o3 = Plot "opacity_plot.html" f)
    /\ (~ In "atmospheric_opacity" (map (canonical strip lower) (map fst cols)) ->
        o3 = Print "⚠️ No atmospheric_opacity column found.").
Proof.
  intros Hfs Hp Hnd Hreq Hnum.
  set (raw := mkDataFrame (seq 0 (nrows cols)) cols).
  destruct (clean_succeeds raw) as [out Hout]; [assumption | assumption | |].
  { intros n c Hin Hc. apply (Hnum n c Hin). rewrite Hc. now left. }
  pose proof (clean_labels_NoDup strip lower datetime_of raw out Hnd Hout) as Hnd'.
  pose proof (clean_columns_incl raw out Hout) as Hincl.
  assert (forall name, In name (required ++ derived) ->
                       exists c, select name out = [c]) as Hsel.
  { intros name Hin. apply NoDup_select; [assumption|]. apply Hincl.
    apply in_app_iff. apply in_app_iff in Hin. destruct Hin as [Hin|Hin];
      [left; now apply Hreq | now right]. }
  destruct (Hsel "terrestrial_date") as [d Hd]; [simpl; tauto|].
  destruct (Hsel "min_temp") as [m1 H1]; [simpl; tauto|].
  destruct (Hsel "max_temp") as [m2 H2]; [simpl; tauto|].
  destruct (Hsel "pressure") as [m3 H3]; [simpl; tauto|].
  destruct (Hsel "ls") as [l Hl]; [simpl; tauto|].
  destruct (Hsel "season") as [k Hk]; [simpl; tauto|].
  destruct (Hsel "year") as [y Hy]; [simpl; tauto|].
  destruct (Hsel "day") as [dy Hdy]; [simpl; tauto|].
  assert (forall name c, In name measures -> select name out = [c] ->
                         Forall (fun v => is_number v = true) c) as Hmeas.
  { intros name c Hin Hs.
    apply (clean_numeric_columns raw out name); try assumption.
    - intros n c0 Hin0 Hc. apply (Hnum n c0 Hin0). rewrite Hc. now right.
    - intros ->. simpl in Hin. destruct Hin as [H|[H|[H|[]]]]; discriminate.
    - intros Hder. simpl in Hin, Hder.
      destruct Hin as [<-|[<-|[<-|[]]]];
        destruct Hder as [H|[H|[H|[]]]]; discriminate.
    - apply select_In. rewrite Hs. now left. }
  destruct (clean_season_entries strip lower datetime_of raw out Hout) as [l' [Gl [Nl _]]].
  rewrite (getitem_select _ _ _ Hl) in Gl. inversion Gl. subst l'.
  assert (Forall (fun c => is_number c = true /\ isna c = false) l) as Hls.
  { assert (Forall (fun v => isna v = false) l) as Hpres.
    { apply (clean_required_present raw out "ls"); [assumption | simpl; tauto|].
      apply select_In. rewrite Hl. now left. }
    rewrite Forall_forall in *. intros c Hc. split; [now apply Nl | now apply Hpres]. }
  assert (length l = length (index out)) as Hlen.
  { pose proof (clean_rectangular strip lower datetime_of raw out Hout) as Hrect.
    unfold rectangular in Hrect.
    rewrite Forall_forall in Hrect.
    apply (Hrect ("ls", l)). apply select_In. rewrite Hl. now left. }
  destruct (plot_temperature_eq _ _ _ _ Hd H1 H2) as [c1 E1].
  destruct (plot_pressure_eq _ _ _ Hd H3) as [c2 E2].
  destruct (plot_opacity_unique out Hnd') as [o3 [E3 [Hyes Hno]]].
  pose proof (plot_season_comparison_eq float64_mean _ _ _ _ _ Hk H1 H2 H3
                (Hmeas "min_temp" m1 (or_introl eq_refl) H1)
                (Hmeas "max_temp" m2 (or_intror (or_introl eq_refl)) H2)
                (Hmeas "pressure" m3 (or_intror (or_intror (or_introl eq_refl))) H3))
    as E4.
  destruct (plot_animated_temperature_eq _ _ _ _ Hdy H2 Hy) as [c5 E5].
  pose proof (plot_polar_climate_eq _ _ _ _ _ Hl H1 H2 H3 Hlen Hls) as E6.
  assert (In "atmospheric_opacity" (columns out)
          <-> In "atmospheric_opacity" (map (canonical strip lower) (map fst cols))) as Hop.
  { split.
    - intros Hin.
      destruct (header_columns_of_clean raw out Hout) as [extra [Hc Hex]].
      rewrite Hc in Hin. apply in_app_iff in Hin. destruct Hin as [Hin|Hin];
        [exact Hin|].
      apply Hex in Hin. simpl in Hin. destruct Hin as [H|[H|[H|[]]]]; discriminate.
    - intros Hin. apply Hincl. apply in_app_iff. now left. }
  do 7 eexists. split; [|split].
  - unfold main, loaded. rewrite (load_pair _ _ _ _ Hfs Hp). fold raw.
    rewrite Hout. cbn [pbind fst snd map app].
    rewrite E1. cbn [pbind fst snd map app].
    rewrite E2. cbn [pbind fst snd map app].
    rewrite E3. cbn [said pbind emit fst snd map app].
    rewrite E4. cbn [said pbind emit fst snd map app].
    rewrite E5. cbn [pbind fst snd map app].
    rewrite E6. cbn [pbind emit fst snd map app].
    reflexivity.
  - intros Hin. apply Hyes. now apply Hop.
  - intros Hin. apply Hno. intros H. apply Hin. now apply Hop.
Qed.

End EntryPointFacts.

(** * Instances of the further properties *)

Lemma load_output_is_rectangular_witness : rectangular sample_output.
Proof.
  apply (load_output_is_rectangular sample_parse ascii_strip ascii_lower iso_date
      sample_fs
           "data/mars-weather.csv" sample_output eq_refl).
Defined.

Lemma NoDup_sample_labels :
  NoDup (map (canonical ascii_strip ascii_lower) (map fst sample_columns)).
Proof.
  repeat constructor; simpl; intros H;
    repeat (destruct H as [H|H]; [discriminate|]); exact H.
Defined.

Lemma load_keeps_labels_unique_witness : NoDup (columns sample_output).
Proof.
  apply (load_keeps_labels_unique sample_parse ascii_strip ascii_lower iso_date sample_fs
           "data/mars-weather.csv" "sample" sample_columns sample_output
           eq_refl eq_refl NoDup_sample_labels eq_refl).
Defined.

Lemma load_output_labels_are_normalized_witness :
  "min_temp" <> "atmo_opacity"
  /\ ascii_strip "min_temp" = "min_temp" /\ ascii_lower "min_temp" = "min_temp".
Proof.
  destruct (load_output_labels_are_normalized sample_parse ascii_strip ascii_lower
              iso_date sample_fs "data/mars-weather.csv" "sample" sample_columns
              sample_output "min_temp" eq_refl eq_refl eq_refl) as [H1 H2].
  - simpl. tauto.
  - split; [exact H1|]. apply H2.
    + intros s _. reflexivity.
    + intros s _. reflexivity.
    + repeat constructor.
Defined.

Lemma load_calendar_columns_witness :
  exists d, getitem sample_output "terrestrial_date" = Ok d /\ Forall is_time d.
Proof.
  destruct (load_calendar_columns sample_parse ascii_strip ascii_lower iso_date sample_fs
              "data/mars-weather.csv" sample_output eq_refl) as [d [H1 [H2 _]]].
  exists d. split; [exact H1 | exact H2].
Defined.

Lemma load_season_entries_are_labels_witness :
  exists l, getitem sample_output "ls" = Ok l
            /\ Forall (fun c => is_number c = true) l.
Proof.
  destruct (load_season_entries_are_labels sample_parse ascii_strip ascii_lower iso_date
      sample_fs
              "data/mars-weather.csv" sample_output eq_refl) as [l [H1 [H2 _]]].
  exists l. split; [exact H1 | exact H2].
Defined.

Lemma sample_required_labels name :
  In name required -> In name (columns (relabelled ascii_strip ascii_lower sample_raw)).
Proof.
  intros H. simpl in H. simpl.
  destruct H as [<-|[<-|[<-|[<-|[<-|[]]]]]]; tauto.
Defined.

Lemma load_raises_TypeError_on_text_ls_witness :
  (exists out,
      snd (load_and_clean_data sample_parse ascii_strip ascii_lower iso_date sample_fs
             "data/mars-weather.csv") = Ok out)
  \/ snd (load_and_clean_data sample_parse ascii_strip ascii_lower iso_date sample_fs
            "data/mars-weather.csv")
     = Raise (TypeError "'<=' not supported").
Proof.
  apply (load_raises_TypeError_on_text_ls sample_parse ascii_strip ascii_lower iso_date
      sample_fs
           "data/mars-weather.csv" "sample" sample_columns
           [Str "2012-08-16"; Str "not a date"; Str "2013-01-05";
            Str "2014-03-09"; Str "2015-07-21"]
           [lit 155; lit 156; lit 200; lit 270; lit 360]
           eq_refl eq_refl eq_refl eq_refl sample_required_labels).
Defined.

Lemma load_header_only_source_witness :
  exists out,
    snd (load_and_clean_data header_only_parse ascii_strip ascii_lower iso_date
        header_only_fs "any.csv")
    = Ok out
    /\ index out = [].
Proof.
  destruct (load_header_only_source header_only_parse ascii_strip ascii_lower iso_date
      header_only_fs
              "any.csv" "" header_only_columns [] []
              eq_refl eq_refl eq_refl eq_refl eq_refl) as [out [H1 [H2 _]]].
  - intros name H. simpl in H. simpl.
    destruct H as [<-|[<-|[<-|[<-|[<-|[]]]]]]; tauto.
  - exists out. split; [exact H1 | exact H2].
Defined.

Lemma opacity_counts_are_ordered_and_add_up_witness :
  exists keys ns,
    plot_opacity sample_output
    = Ok (Plot "opacity_plot.html"
            (PxBar (mkDataFrame (seq 0 (length keys))
                      [("Opacity Type", keys); ("Count", map num_of_nat ns)])
               "Opacity Type" "Count"))
    /\ list_sum ns = 3.
Proof.
  destruct (opacity_counts_are_ordered_and_add_up sample_output
              [Str "Sunny"; Str "Cloudy"; Str "Sunny"] eq_refl)
    as [keys [ns [H1 [_ [_ [_ H2]]]]]].
  exists keys, ns. split; [exact H1 | exact H2].
Defined.

Lemma season_chart_has_at_most_five_sorted_keys_witness :
  exists x y1 y2 y3,
    plot_season_comparison exact_mean sample_output
    = Ok (Plot "season_comparison.html"
            (GoBars [("Min Temp", x, y1); ("Max Temp", x, y2); ("Pressure", x, y3)]))
    /\ length x <= 5.
Proof.
  destruct (season_chart_has_at_most_five_sorted_keys exact_mean sample_output
              [Str "Summer"; Str "Winter"; Str "Unknown"]
              [lit (-75); lit (-70); lit (-80)]
              [lit (-2); lit (-5); lit (-9)]
              [lit 739; lit 900; lit 850]
              eq_refl eq_refl eq_refl eq_refl)
    as [x [y1 [y2 [y3 [H1 [_ [_ [H2 _]]]]]]]].
  - repeat constructor.
  - repeat constructor; eexists; (split; [reflexivity | simpl; tauto]).
  - exists x, y1, y2, y3. split; [exact H1 | exact H2].
Defined.

Lemma polar_traces_are_sorted_and_aligned_witness :
  exists rows,
    Permutation rows [0; 1; 2; 3]
    /\ Sorted (fun a b => cell_leb a b = true)
         (map (fun i => at_row i [lit 270; lit 155; lit 359; lit 155]) rows).
Proof.
  destruct (polar_traces_are_sorted_and_aligned polar_example
              [lit 270; lit 155; lit 359; lit 155]
              [lit (-75); lit (-70); lit (-80); lit (-71)]
              [lit (-2); lit (-5); lit (-9); lit (-6)]
              [lit 739; lit 900; lit 850; lit 910]
              eq_refl eq_refl eq_refl eq_refl eq_refl)
    as [rows [H1 [H2 _]]].
  - repeat constructor.
  - exists rows. split; [exact H1 | exact H2].
Defined.

Lemma polar_temperature_is_written_before_pressure_fails_witness :
  exists chart,
    plot_polar_climate polar_example_no_pressure
    = ([Wrote "polar_temperature.html" chart], Raise (KeyError ["pressure"])).
Proof.
  apply (polar_temperature_is_written_before_pressure_fails
           polar_example_no_pressure
           [lit 270; lit 155; lit 359; lit 155]
           [lit (-75); lit (-70); lit (-80); lit (-71)]
           [lit (-2); lit (-5); lit (-9); lit (-6)]
           eq_refl eq_refl eq_refl eq_refl eq_refl).
  repeat constructor.
Defined.

Lemma main_prints_the_loader_error_and_draws_nothing_witness :
  main sample_parse ascii_strip ascii_lower iso_date exact_mean "main.py" site_fs
  = [Io (OsPathExists "../data/mars-weather.csv");
     PrintedError
       (FileNotFoundError "❌ Data file not found at: ../data/mars-weather.csv")].
Proof.
  apply (main_prints_the_loader_error_and_draws_nothing sample_parse
           ascii_strip ascii_lower iso_date
           exact_mean "main.py" site_fs
           (FileNotFoundError "❌ Data file not found at: ../data/mars-weather.csv")
           eq_refl).
Defined.

Lemma main_completes_on_a_well_formed_source_witness :
  exists c1 c2 o3 f4 c5 c6 c7,
    main sample_parse ascii_strip ascii_lower iso_date
        exact_mean "/srv/mars/src/main.py" site_fs
    = [Io (OsPathExists "/srv/mars/src/../data/mars-weather.csv");
       Io (ReadCsv "/srv/mars/src/../data/mars-weather.csv");
       Wrote "temperature_plot.html" c1;
       Wrote "pressure_plot.html" c2;
       Did o3;
       Did (Plot "season_comparison.html" f4);
       Wrote "animated_temperature.html" c5;
       Wrote "polar_temperature.html" c6;
       Wrote "polar_pressure.html" c7;
       Did (Print "✅ All plots generated including polar plots. Check your HTML files.")].
Proof.
  destruct (main_completes_on_a_well_formed_source sample_parse ascii_strip ascii_lower iso_date
              exact_mean "/srv/mars/src/main.py" site_fs "sample" sample_columns
              eq_refl eq_refl NoDup_sample_labels)
    as [c1 [c2 [o3 [f4 [c5 [c6 [c7 [H _]]]]]]]].
  - intros name H. simpl in H. simpl.
    destruct H as [<-|[<-|[<-|[<-|[<-|[]]]]]]; tauto.
  - intros n c Hin Hc. simpl in Hin.
    destruct Hin as [H|[H|[H|[H|[H|[H|[]]]]]]]; inversion H; subst;
      try (repeat constructor);
      simpl in Hc; exfalso;
      repeat (destruct Hc as [Hc|Hc]; [discriminate|]); exact Hc.
  - exists c1, c2, o3, f4, c5, c6, c7. exact H.
Defined.
